(** * rio: filesystem driver, bind placer and unpack cache

  A shallow embedding of [fs/osfs] (the host filesystem driver), of the
  bind-mount placer and of the caching wrapper around an unpack tool,
  together with the properties of them that the design document states. *)

From Stdlib Require Import ZArith Lia Ascii String List Bool.
From stdpp Require Import base option gmap strings.
Import ListNotations.

Local Open Scope string_scope.
Local Open Scope Z_scope.

(** ** Go integer conversions *)

Module GoInt.

(** [uint32(x)]: the low 32 bits. *)
Definition to_uint32 (x : Z) : Z := x mod 2 ^ 32.

(** [uint64(x)]: the low 64 bits. *)
Definition to_uint64 (x : Z) : Z := x mod 2 ^ 64.

(** [int64(x)]: the low 64 bits, read in two's complement. *)
Definition to_int64 (x : Z) : Z := (x + 2 ^ 63) mod 2 ^ 64 - 2 ^ 63.

(** [x << n] on an [int64]: the shifted value wraps to 64 bits. *)
Definition shl64 (x n : Z) : Z := to_int64 (Z.shiftl x n).

Definition is_int64 (x : Z) : Prop := - 2 ^ 63 <= x < 2 ^ 63.
Definition is_uint32 (x : Z) : Prop := 0 <= x < 2 ^ 32.

End GoInt.
Import GoInt.

(** ** Device numbers (osfs.go, [devModesJoin] and [devModesSplit]) *)

(** [uint32(((minor & 0xfff00) << 12) | ((major & 0xfff) << 8) | (minor & 0xff))] *)
Definition devModesJoin (major minor : Z) : Z :=
  to_uint32
    (Z.lor (Z.lor (shl64 (Z.land minor 0xfff00) 12)
                  (shl64 (Z.land major 0xfff) 8))
           (Z.land minor 0xff)).

(** [int64((rdev >> 8) & 0xff), int64((rdev & 0xff) | ((rdev >> 12) & 0xfff00))] *)
Definition devModesSplit (rdev : Z) : Z * Z :=
  (to_int64 (Z.land (Z.shiftr rdev 8) 0xff),
   to_int64 (Z.lor (Z.land rdev 0xff) (Z.land (Z.shiftr rdev 12) 0xfff00))).

(** ** Paths *)

(** Modelled from the spec: [fs.AbsolutePath] is not among the sources.
    An absolute path is rooted and filesystem-global; [String] gives the
    path the operating system is addressed with. *)
Module AbsolutePath.
Record t : Type := Mk { path : string }.
Definition String (p : t) : string := path p.
End AbsolutePath.

(** Modelled from the spec: [fs.RelPath] is not among the sources.  A
    relative path is rooted at an implicit base; [zero] is the zero value
    of the struct, as [var tmpPath fs.RelPath] leaves it. *)
Module RelPath.
Record t : Type := Mk { path : string }.
Definition zero : t := Mk "".
End RelPath.

#[global] Instance AbsolutePath_eq_dec : EqDecision AbsolutePath.t.
Proof. solve_decision. Defined.

#[global] Instance RelPath_eq_dec : EqDecision RelPath.t.
Proof. solve_decision. Defined.

(** Modelled from the spec: [fs.MustAbsolutePath] is not among the
    sources; it makes an absolute path of a string. *)
Definition MustAbsolutePath (p : string) : AbsolutePath.t := AbsolutePath.Mk p.

(** Modelled from the spec: [fs.MustRelPath] is not among the sources; it
    makes a relative path of a string. *)
Definition MustRelPath (p : string) : RelPath.t := RelPath.Mk p.

(** Modelled from the spec: [AbsolutePath.Join] is not among the sources.
    A relative path is joined against a base to form an OS-addressable
    path; the zero relative path names the base itself. *)
Definition Join (base : AbsolutePath.t) (rel : RelPath.t) : AbsolutePath.t :=
  if decide (RelPath.path rel = "") then base
  else if decide (AbsolutePath.path base = "/")
       then AbsolutePath.Mk ("/" ++ RelPath.path rel)
       else AbsolutePath.Mk (AbsolutePath.path base ++ "/" ++ RelPath.path rel).

(** Modelled from the spec: [AbsolutePath.CoerceRelative] is not among the
    sources; it is the same path, read from the root of the host. *)
Definition CoerceRelative (p : AbsolutePath.t) : RelPath.t :=
  match AbsolutePath.path p with
  | String "/"%char rest => RelPath.Mk rest
  | s => RelPath.Mk s
  end.

(** ** Errors *)

Inductive Errno : Set :=
  ENOENT | EINVAL | EACCES | EPERM | EIO | ENOTDIR | ELOOP | EBUSY | EEXIST.

#[global] Instance Errno_eq_dec : EqDecision Errno.
Proof. solve_decision. Defined.

(** [os.PathError] *)
Record PathError : Type := { Op : string; Path : string; Err : Errno }.

(** [os.IsNotExist] on a [*os.PathError] *)
Definition IsNotExist (err : PathError) : bool := bool_decide (Err err = ENOENT).

(** [fs.ErrFS]: the error kinds of the filesystem driver. *)
Inductive ErrFS : Type :=
| ErrNotExists (path : RelPath.t)
| ErrIOUnknown (cause : PathError).

(** Modelled from the spec: [fs.IOError] is not among the sources.  Every
    driver operation fails with an I/O error kind when the host call
    fails; no host error gives no driver error. *)
Definition IOError (err : option PathError) : option ErrFS :=
  match err with
  | None => None
  | Some e => Some (ErrIOUnknown e)
  end.

Definition is_io_error (e : option ErrFS) : Prop :=
  match e with Some (ErrIOUnknown _) => True | _ => False end.

(** The error categories of [rio] that these packages use. *)
Inductive ErrorCategory : Set :=
  ErrLocalCacheProblem | ErrAssemblyInvalid | ExitLocalCacheProblem.

(** The arguments formatted into an error message. *)
Inductive ErrArg : Type :=
| ArgErrFS (e : ErrFS)
| ArgErrno (e : Errno)
| ArgPath (p : AbsolutePath.t).

(** A Go [error]: one built by [errcat.Errorf], or any other value. *)
Inductive error : Type :=
| Errorf (category : ErrorCategory) (format : string) (args : list ErrArg)
| ErrOther (msg : string).

Definition Category (e : error) : option ErrorCategory :=
  match e with
  | Errorf c _ _ => Some c
  | ErrOther _ => None
  end.

(** ** File modes and metadata *)

(** The bits of Go's [os.FileMode]. *)
Definition ModeDir : Z := 2 ^ 31.
Definition ModeSymlink : Z := 2 ^ 27.
Definition ModeDevice : Z := 2 ^ 26.
Definition ModeNamedPipe : Z := 2 ^ 25.
Definition ModeSocket : Z := 2 ^ 24.
Definition ModeSetuid : Z := 2 ^ 23.
Definition ModeSetgid : Z := 2 ^ 22.
Definition ModeCharDevice : Z := 2 ^ 21.
Definition ModeSticky : Z := 2 ^ 20.
Definition ModePerm : Z := 511.
Definition ModeType : Z :=
  Z.lor ModeDir (Z.lor ModeSymlink (Z.lor ModeNamedPipe (Z.lor ModeSocket ModeDevice))).

(** [fs.Type] *)
Inductive FileType : Set :=
| Type_File | Type_Dir | Type_Symlink | Type_NamedPipe | Type_Socket
| Type_Device | Type_CharDevice.

#[global] Instance FileType_eq_dec : EqDecision FileType.
Proof. solve_decision. Defined.

(** [fs.Perms] and its three extra bits, 04000, 02000 and 01000. *)
Definition Perms_Setuid : Z := 2048.
Definition Perms_Setgid : Z := 1024.
Definition Perms_Sticky : Z := 512.

(** [fs.Metadata], without the extended attributes. *)
Record Metadata : Type := {
  Name : RelPath.t;
  Type_ : FileType;
  Perms : Z;
  Uid : Z;
  Gid : Z;
  Size : Z;
  Linkname : string;
  Devmajor : Z;
  Devminor : Z;
  Mtime : Z
}.

(** [permsToOs] *)
Definition permsToOs (perms : Z) : Z :=
  let mode := Z.land perms 511 in
  let mode := if Z.land perms 2048 =? 0 then mode else Z.lor mode ModeSetuid in
  let mode := if Z.land perms 1024 =? 0 then mode else Z.lor mode ModeSetgid in
  let mode := if Z.land perms 512 =? 0 then mode else Z.lor mode ModeSticky in
  mode.

(** ** The host

    The operating system behind Go's [os] and [syscall] packages, as far
    as the code below calls it: the directory entries by path, the mount
    table by mount point, and the calls the host is going to refuse. *)

(** [syscall.Stat_t], the fields read here. *)
Record Stat_t : Type := { st_Uid : Z; st_Gid : Z; st_Rdev : Z }.

(** [os.FileInfo] *)
Record FileInfo : Type := {
  fi_Size : Z;
  fi_ModTime : Z;
  fi_Mode : Z;
  fi_Sys : option Stat_t
}.

Record Inode : Type := { ino_info : FileInfo; ino_target : string }.

Record MountEntry : Type := { mnt_source : string; mnt_readonly : bool }.

Record Host : Type := {
  inodes : gmap string Inode;
  (** lookups the host refuses, with the reason *)
  lookup_faults : gmap string Errno;
  mounts : gmap string MountEntry;
  (** mount calls the host refuses, by mount point and flags *)
  mount_faults : gmap (string * Z) Errno
}.

Definition set_inodes (f : gmap string Inode -> gmap string Inode) (h : Host) : Host :=
  {| inodes := f (inodes h); lookup_faults := lookup_faults h;
     mounts := mounts h; mount_faults := mount_faults h |}.

Definition set_mounts (f : gmap string MountEntry -> gmap string MountEntry) (h : Host) : Host :=
  {| inodes := inodes h; lookup_faults := lookup_faults h;
     mounts := f (mounts h); mount_faults := mount_faults h |}.

Definition is_symlink (i : Inode) : bool :=
  negb (Z.land (fi_Mode (ino_info i)) ModeSymlink =? 0).

(** [os.Lstat], as the host answers it: the information of the entry
    itself, or the error. *)
Definition os_Lstat (name : string) (h : Host) : FileInfo + PathError :=
  match lookup_faults h !! name with
  | Some e => inr {| Op := "lstat"; Path := name; Err := e |}
  | None =>
    match inodes h !! name with
    | None => inr {| Op := "lstat"; Path := name; Err := ENOENT |}
    | Some i => inl (ino_info i)
    end
  end.

(** [os.Readlink], as the host answers it: the target of a symbolic
    link, or the error, which is [ENOENT] for an absent entry and [EINVAL]
    for an entry that is not a symbolic link. *)
Definition os_Readlink (name : string) (h : Host) : string + PathError :=
  match lookup_faults h !! name with
  | Some e => inr {| Op := "readlink"; Path := name; Err := e |}
  | None =>
    match inodes h !! name with
    | None => inr {| Op := "readlink"; Path := name; Err := ENOENT |}
    | Some i =>
      if is_symlink i then inl (ino_target i)
      else inr {| Op := "readlink"; Path := name; Err := EINVAL |}
    end
  end.

Definition MS_RDONLY : Z := 1.
Definition MS_REMOUNT : Z := 32.
Definition MS_BIND : Z := 4096.
Definition MS_REC : Z := 16384.

Definition has_flag (flags flag : Z) : bool := negb (Z.land flags flag =? 0).

(** [syscall.Mount], as the host answers it: a bind establishes a
    writable mount whatever the read-only flag says; a remount changes the
    mount that is there; a refused call changes nothing. *)
Definition syscall_Mount (source target fstype : string) (flags : Z) (data : string)
  (h : Host) : option Errno * Host :=
  match mount_faults h !! (target, flags) with
  | Some e => (Some e, h)
  | None =>
    if has_flag flags MS_REMOUNT then
      match mounts h !! target with
      | None => (Some EINVAL, h)
      | Some m =>
        (None, set_mounts (insert target {| mnt_source := mnt_source m;
                                             mnt_readonly := has_flag flags MS_RDONLY |}) h)
      end
    else
      (None, set_mounts (insert target {| mnt_source := source; mnt_readonly := false |}) h)
  end.

(** [syscall.Unmount], as the host answers it. *)
Definition syscall_Unmount (target : string) (flags : Z) (h : Host) : option Errno * Host :=
  match mounts h !! target with
  | None => (Some EINVAL, h)
  | Some _ => (None, set_mounts (delete target) h)
  end.

(** ** The driver on the host filesystem (osfs.go) *)

(** What a Go call comes to: it returns, or it panics. *)
Inductive Outcome (A : Type) : Type :=
| Returns (a : A)
| Panics (msg : string).
Arguments Returns {A} a.
Arguments Panics {A} msg.

Record osFS : Type := { basePath : AbsolutePath.t }.

(** [afs.basePath.Join(path).String()] *)
Definition os_name (afs : osFS) (path : RelPath.t) : string :=
  AbsolutePath.String (Join (basePath afs) path).

(** [osFS.Readlink] *)
Definition osFS_Readlink (afs : osFS) (path : RelPath.t) (h : Host)
  : string * bool * option ErrFS :=
  match os_Readlink (os_name afs path) h with
  | inl target => (target, true, None)
  | inr err =>
    if IsNotExist err then ("", false, Some (ErrNotExists path))
    else if bool_decide (Err err = EINVAL) then ("", false, None)
    else ("", false, IOError (Some err))
  end.

(** The [switch] of [osFS.LStat] on the type bits of the mode; [None] is
    its [default] branch. *)
Definition mode_type (fm : Z) : option FileType :=
  let t := Z.land fm (Z.lor ModeType ModeCharDevice) in
  if t =? 0 then Some Type_File
  else if t =? ModeDir then Some Type_Dir
  else if t =? ModeSymlink then Some Type_Symlink
  else if t =? ModeNamedPipe then Some Type_NamedPipe
  else if t =? ModeSocket then Some Type_Socket
  else if t =? ModeDevice then Some Type_Device
  else if t =? Z.lor ModeDevice ModeCharDevice then Some Type_CharDevice
  else None.

(** The permission bits [osFS.LStat] reads off a mode. *)
Definition mode_perms (fm : Z) : Z :=
  let perms := Z.land fm ModePerm in
  let perms := if Z.land fm ModeSetuid =? 0 then perms else Z.lor perms Perms_Setuid in
  let perms := if Z.land fm ModeSetgid =? 0 then perms else Z.lor perms Perms_Setgid in
  let perms := if Z.land fm ModeSticky =? 0 then perms else Z.lor perms Perms_Sticky in
  perms.

(** The mode made of a permission value reads back as that value. *)
Definition perms_survive (perms : Z) : bool := mode_perms (permsToOs perms) =? perms.

(** [osFS.LStat] *)
Definition osFS_LStat (afs : osFS) (path : RelPath.t) (h : Host)
  : Outcome (option Metadata * option ErrFS) :=
  match os_Lstat (os_name afs path) h with
  | inr err => Returns (None, IOError (Some err))
  | inl fi =>
    let fm := fi_Mode fi in
    match mode_type fm with
    | None => Panics "unknown file mode"
    | Some ty =>
      let perms := mode_perms fm in
      let '(uid, gid, devs) :=
        match fi_Sys fi with
        | Some sys =>
          (st_Uid sys, st_Gid sys,
           if bool_decide (ty = Type_Device) || bool_decide (ty = Type_CharDevice)
           then devModesSplit (st_Rdev sys) else (0, 0))
        | None => (0, 0, (0, 0))
        end in
      match osFS_Readlink afs path h with
      | (target, _, None) =>
        Returns (Some {| Name := path; Type_ := ty; Perms := perms;
                         Uid := uid; Gid := gid; Size := fi_Size fi;
                         Linkname := target;
                         Devmajor := fst devs; Devminor := snd devs;
                         Mtime := fi_ModTime fi |}, None)
      | (_, _, Some err) => Returns (None, Some err)
      end
    end
  end.

(** [fs.FS], the methods of the interface that are called here. *)
Record FS : Type := {
  BasePath : AbsolutePath.t;
  LStat : RelPath.t -> Host -> Outcome (option Metadata * option ErrFS);
  Readlink : RelPath.t -> Host -> string * bool * option ErrFS
}.

(** [osfs.New] *)
Definition New (basePath : AbsolutePath.t) : FS :=
  let afs := {| basePath := basePath |} in
  {| BasePath := basePath; LStat := osFS_LStat afs; Readlink := osFS_Readlink afs |}.

(** ** The driver: making entries (osfs.go) *)

(** The mode bits of the kernel, as package [syscall] names them. *)
Definition S_IFMT : Z := 61440.
Definition S_IFSOCK : Z := 49152.
Definition S_IFLNK : Z := 40960.
Definition S_IFREG : Z := 32768.
Definition S_IFBLK : Z := 24576.
Definition S_IFDIR : Z := 16384.
Definition S_IFCHR : Z := 8192.
Definition S_IFIFO : Z := 4096.
Definition S_ISUID : Z := 2048.
Definition S_ISGID : Z := 1024.
Definition S_ISVTX : Z := 512.

(** The mode Go's [os.Lstat] reports for a mode the kernel holds. *)
Definition FileMode_of_unix (m : Z) : Z :=
  let mode := Z.land m 511 in
  let t := Z.land m S_IFMT in
  let mode :=
    if t =? S_IFBLK then Z.lor mode ModeDevice
    else if t =? S_IFCHR then Z.lor mode (Z.lor ModeDevice ModeCharDevice)
    else if t =? S_IFDIR then Z.lor mode ModeDir
    else if t =? S_IFIFO then Z.lor mode ModeNamedPipe
    else if t =? S_IFLNK then Z.lor mode ModeSymlink
    else if t =? S_IFSOCK then Z.lor mode ModeSocket
    else mode in
  let mode := if Z.land m S_ISGID =? 0 then mode else Z.lor mode ModeSetgid in
  let mode := if Z.land m S_ISUID =? 0 then mode else Z.lor mode ModeSetuid in
  let mode := if Z.land m S_ISVTX =? 0 then mode else Z.lor mode ModeSticky in
  mode.

(** The mode Go's [os] package hands the kernel for an [os.FileMode]. *)
Definition syscallMode (i : Z) : Z :=
  let o := Z.land i ModePerm in
  let o := if Z.land i ModeSetuid =? 0 then o else Z.lor o S_ISUID in
  let o := if Z.land i ModeSetgid =? 0 then o else Z.lor o S_ISGID in
  let o := if Z.land i ModeSticky =? 0 then o else Z.lor o S_ISVTX in
  o.

(** Modelled from the spec: [fs.IOError] on the errors of the host that
    are no [*os.PathError] (the link error of [os.Symlink], the bare errno
    of [syscall.Mknod] and [syscall.Mkfifo]) is not among the sources.
    Every driver operation fails with an I/O error kind when the host call
    fails; here it names the operation, the path and the errno. *)
Definition IOError_errno (op name : string) (err : option Errno) : option ErrFS :=
  IOError (option_map (fun e => {| Op := op; Path := name; Err := e |}) err).

(** The process that calls the driver, as far as the host looks at it
    when it makes an entry. *)
Record Process : Type := { umask : Z; euid : Z; egid : Z }.

Section Creation.

Variable proc : Process.

(** The entry the host makes for a kernel mode: it belongs to the
    process; its size and time are left at zero. *)
Definition made_inode (unix_mode rdev : Z) (target : string) : Inode :=
  {| ino_info := {| fi_Size := 0; fi_ModTime := 0;
                    fi_Mode := FileMode_of_unix unix_mode;
                    fi_Sys := Some {| st_Uid := euid proc; st_Gid := egid proc;
                                      st_Rdev := rdev |} |};
     ino_target := target |}.

(** The host makes an entry at a path: the call is refused, or the path
    is taken, or the entry is made.  The host of this model does not look
    at the directories on the way to the path. *)
Definition host_create (name : string) (i : Inode) (h : Host) : option Errno * Host :=
  match lookup_faults h !! name with
  | Some e => (Some e, h)
  | None =>
    match inodes h !! name with
    | Some _ => (Some EEXIST, h)
    | None => (None, set_inodes (insert name i) h)
    end
  end.

(** [syscall.Mknod], as the host answers it: a file, a device, a pipe or
    a socket with the permission bits the mask of the process lets
    through; the device number is kept for a device. *)
Definition syscall_Mknod (name : string) (mode dev : Z) (h : Host) : option Errno * Host :=
  let t := Z.land mode S_IFMT in
  let perm := Z.land (Z.land mode 4095) (Z.lnot (umask proc)) in
  if (t =? S_IFBLK) || (t =? S_IFCHR) then
    host_create name (made_inode (Z.lor t perm) dev "") h
  else if (t =? 0) || (t =? S_IFREG) || (t =? S_IFIFO) || (t =? S_IFSOCK) then
    host_create name (made_inode (Z.lor (if t =? 0 then S_IFREG else t) perm) 0 "") h
  else if t =? S_IFDIR then (Some EPERM, h)
  else (Some EINVAL, h).

(** [syscall.Mkfifo]: [Mknod] of a pipe. *)
Definition syscall_Mkfifo (name : string) (mode : Z) (h : Host) : option Errno * Host :=
  syscall_Mknod name (Z.lor mode S_IFIFO) 0 h.

(** [os.Mkdir], as the host answers it: a directory with the permission
    and sticky bits the mask of the process lets through. *)
Definition os_Mkdir (name : string) (perm : Z) (h : Host) : option PathError * Host :=
  let mode := Z.land (Z.land (syscallMode perm) (Z.lnot (umask proc))) 1023 in
  let '(err, h') := host_create name (made_inode (Z.lor S_IFDIR mode) 0 "") h in
  (option_map (fun e => {| Op := "mkdir"; Path := name; Err := e |}) err, h').

(** [os.Symlink], as the host answers it: a symbolic link that holds the
    old name as it is written. *)
Definition os_Symlink (oldname newname : string) (h : Host) : option Errno * Host :=
  host_create newname (made_inode (Z.lor S_IFLNK 511) 0 oldname) h.

(** [osFS.Mkdir] *)
Definition osFS_Mkdir (afs : osFS) (path : RelPath.t) (perms : Z) (h : Host)
  : option ErrFS * Host :=
  let '(err, h') := os_Mkdir (os_name afs path) (permsToOs perms) h in
  (IOError err, h').

(** [osFS.Mklink] *)
Definition osFS_Mklink (afs : osFS) (path : RelPath.t) (target : string) (h : Host)
  : option ErrFS * Host :=
  let '(err, h') := os_Symlink target (os_name afs path) h in
  (IOError_errno "symlink" (os_name afs path) err, h').

(** [osFS.Mkfifo] *)
Definition osFS_Mkfifo (afs : osFS) (path : RelPath.t) (perms : Z) (h : Host)
  : option ErrFS * Host :=
  let '(err, h') := syscall_Mkfifo (os_name afs path) (to_uint32 (Z.land perms 4095)) h in
  (IOError_errno "mkfifo" (os_name afs path) err, h').

(** [osFS.MkdevBlock] *)
Definition osFS_MkdevBlock (afs : osFS) (path : RelPath.t) (major minor perms : Z)
  (h : Host) : option ErrFS * Host :=
  let mode := Z.lor (to_uint32 (Z.land perms 4095)) S_IFBLK in
  let '(err, h') := syscall_Mknod (os_name afs path) mode
                                  (to_int64 (devModesJoin major minor)) h in
  (IOError_errno "mknod" (os_name afs path) err, h').

(** [osFS.MkdevChar] *)
Definition osFS_MkdevChar (afs : osFS) (path : RelPath.t) (major minor perms : Z)
  (h : Host) : option ErrFS * Host :=
  let mode := Z.lor (to_uint32 (Z.land perms 4095)) S_IFCHR in
  let '(err, h') := syscall_Mknod (os_name afs path) mode
                                  (to_int64 (devModesJoin major minor)) h in
  (IOError_errno "mknod" (os_name afs path) err, h').

End Creation.

(** ** Programs on the host

    A call runs in a world: the host, and the record of the calls of
    interest made so far (the mount calls of a placer, the unpack-tool
    calls of a cache).  A panic ends the run where it happens. *)

Section Programs.

Context {E : Type}.

Record World : Type := { host : Host; trace : list E }.

Definition Prog (A : Type) : Type := World -> Outcome A * World.

Definition ret {A} (a : A) : Prog A := fun w => (Returns a, w).

Definition bind {A B} (p : Prog A) (k : A -> Prog B) : Prog B :=
  fun w =>
    match p w with
    | (Returns a, w') => k a w'
    | (Panics msg, w') => (Panics msg, w')
    end.

Definition panic {A} (msg : string) : Prog A := fun w => (Panics msg, w).

(** A call that reads the host and may panic. *)
Definition look {A} (f : Host -> Outcome A) : Prog A :=
  fun w => (f (host w), w).

(** A call that acts on the host. *)
Definition act {A} (f : Host -> A * Host) : Prog A :=
  fun w => (Returns (fst (f (host w))),
            {| host := snd (f (host w)); trace := trace w |}).

(** The same, entered in the record. *)
Definition emit {A} (ev : E) (f : Host -> A * Host) : Prog A :=
  fun w => (Returns (fst (f (host w))),
            {| host := snd (f (host w)); trace := trace w ++ [ev] |}).

End Programs.

Arguments World : clear implicits.
Arguments Prog : clear implicits.

Notation "'let*' x ':=' p 'in' k" := (bind p (fun x => k))
  (at level 10, x pattern, p at level 100, k at level 200).

(** ** The bind placer *)

Inductive MountCall : Type :=
| CallMount (source target fstype : string) (flags : Z) (data : string)
| CallUnmount (target : string) (flags : Z).

(** [placer.CleanupFunc] *)
Definition CleanupFunc : Type := Prog MountCall (option error).

(** The function [BindPlacer] returns: it unmounts the destination. *)
Definition bind_cleanup (dstPath : AbsolutePath.t) : CleanupFunc :=
  let* err := emit (CallUnmount (AbsolutePath.String dstPath) 0)
                   (syscall_Unmount (AbsolutePath.String dstPath) 0) in
  match err with
  | Some err =>
    ret (Some (Errorf ErrLocalCacheProblem "error tearing down bind mount: %s"
                      [ArgErrno err]))
  | None => ret None
  end.

Section Placer.

(** The package's driver on the root of the host, and its helper that
    makes the mount point; neither declaration is among the sources. *)
Variable rootFs : FS.
Variable mkDest : AbsolutePath.t -> FileType -> Host -> option error * Host.

(** [syscall.Mount(srcPath.String(), dstPath.String(), "bind", uintptr(flags), "")] *)
Definition mount_bind (srcPath dstPath : AbsolutePath.t) (flags : Z)
  : Prog MountCall (option Errno) :=
  emit (CallMount (AbsolutePath.String srcPath) (AbsolutePath.String dstPath) "bind" flags "")
       (syscall_Mount (AbsolutePath.String srcPath) (AbsolutePath.String dstPath) "bind" flags "").

(** [BindPlacer] *)
Definition BindPlacer (srcPath dstPath : AbsolutePath.t) (writable : bool)
  : Prog MountCall (option CleanupFunc * option error) :=
  let* (srcStat, err) := look (LStat rootFs (CoerceRelative srcPath)) in
  match err, srcStat with
  | Some err, _ =>
    ret (None, Some (Errorf ErrLocalCacheProblem "error placing with bind mount: %s"
                            [ArgErrFS err]))
  | None, None => panic "invalid memory address or nil pointer dereference"
  | None, Some srcStat =>
    match Type_ srcStat with
    | Type_File | Type_Dir =>
      let* err := act (mkDest dstPath (Type_ srcStat)) in
      match err with
      | Some err => ret (None, Some err)
      | None =>
        let flags := Z.lor MS_BIND MS_REC in
        let* err := mount_bind srcPath dstPath flags in
        match err with
        | Some err =>
          ret (None, Some (Errorf ErrAssemblyInvalid "error placing with bind mount: %s"
                                  [ArgErrno err]))
        | None =>
          if negb writable then
            let flags := Z.lor flags (Z.lor MS_RDONLY MS_REMOUNT) in
            let* err := mount_bind srcPath dstPath flags in
            match err with
            | Some err =>
              ret (None, Some (Errorf ErrAssemblyInvalid "error placing with bind mount: %s"
                                      [ArgErrno err]))
            | None => ret (Some (bind_cleanup dstPath), None)
            end
          else ret (Some (bind_cleanup dstPath), None)
        end
      end
    | _ =>
      ret (None, Some (Errorf ErrAssemblyInvalid
                              "placer: source may only be dir or plain file (%s is %s)"
                              [ArgPath srcPath]))
    end
  end.

End Placer.

(** ** The cache *)

(** [api.WareID] *)
Record WareID : Type := { ware_Type : string; ware_Hash : string }.

#[global] Instance WareID_eq_dec : EqDecision WareID.
Proof. solve_decision. Defined.

(** [rio.PlacementMode] *)
Inductive PlacementMode : Set := Placement_Direct | Placement_Mount | Placement_Copy.

Section Cache.

(** The values the cache only passes on: the context, the filters, the
    warehouse addresses and the monitor. *)
Context {Ctx Filters Warehouse Monitor : Type}.

(** The arguments of one call of a [rio.UnpackFunc]. *)
Record UnpackCall : Type := {
  uc_ctx : Ctx;
  uc_wareID : WareID;
  uc_path : string;
  uc_filt : Filters;
  uc_placementMode : PlacementMode;
  uc_warehouses : list Warehouse;
  uc_monitor : Monitor
}.

(** [rio.UnpackFunc], as the tool behind the cache: it acts on the host. *)
Definition UnpackFunc : Type :=
  Ctx -> WareID -> string -> Filters -> PlacementMode -> list Warehouse -> Monitor ->
  Host -> (WareID * option error) * Host.

Record cache : Type := { afs : FS; unpackTool : UnpackFunc }.

(** [fsOp.MkdirAll] and [cacheapi.ShelfFor] are not among the sources. *)
Variable MkdirAll : FS -> RelPath.t -> Z -> Host -> option ErrFS * Host.
Variable ShelfFor : WareID -> RelPath.t.

(** [c.unpackTool(...)], entered in the record. *)
Definition call_unpackTool (c : cache) (ctx : Ctx) (wareID : WareID) (path : string)
  (filt : Filters) (placementMode : PlacementMode) (warehouses : list Warehouse)
  (monitor : Monitor) : Prog UnpackCall (WareID * option error) :=
  emit {| uc_ctx := ctx; uc_wareID := wareID; uc_path := path; uc_filt := filt;
          uc_placementMode := placementMode; uc_warehouses := warehouses;
          uc_monitor := monitor |}
       (unpackTool c ctx wareID path filt placementMode warehouses monitor).

(** The path [cache.Unpack] hands to the tool:
    [c.afs.BasePath().Join(tmpPath).String()] with [var tmpPath fs.RelPath]. *)
Definition tmpPathStr (c : cache) : string :=
  let tmpPath := RelPath.zero in
  AbsolutePath.String (Join (BasePath (afs c)) tmpPath).

(** [cache.Unpack] *)
Definition Unpack (c : cache) (ctx : Ctx) (wareID : WareID) (path : string)
  (filt : Filters) (placementMode : PlacementMode) (warehouses : list Warehouse)
  (monitor : Monitor) : Prog UnpackCall (WareID * option error) :=
  let* err := act (MkdirAll (afs c) (MustRelPath (ware_Type wareID ++ "/fileset")) 448) in
  match err with
  | Some err =>
    ret ({| ware_Type := ""; ware_Hash := "" |},
         Some (Errorf ExitLocalCacheProblem "cannot initialize cache dirs: %s" [ArgErrFS err]))
  | None =>
    let* (resultWareID, err) :=
      call_unpackTool c ctx wareID (tmpPathStr c) filt Placement_Direct warehouses monitor in
    match err with
    | Some err => ret (resultWareID, Some err)
    | None => ret (resultWareID, None)
    end
  end.

(** [Lrn2Cache] *)
Definition Lrn2Cache (cacheFs : FS) (unpackTool : UnpackFunc) :=
  Unpack {| afs := cacheFs; unpackTool := unpackTool |}.

(** The shelf of a ware is there: the host has an entry at its path. *)
Definition shelf_exists (c : cache) (wareID : WareID) (h : Host) : Prop :=
  is_Some (inodes h !! AbsolutePath.String (Join (BasePath (afs c)) (ShelfFor wareID))).

End Cache.

(** The two mount calls of [BindPlacer]: the bind, and its read-only
    remount. *)
Definition bind_call (srcPath dstPath : AbsolutePath.t) : MountCall :=
  CallMount (AbsolutePath.String srcPath) (AbsolutePath.String dstPath) "bind"
            (Z.lor MS_BIND MS_REC) "".

Definition remount_call (srcPath dstPath : AbsolutePath.t) : MountCall :=
  CallMount (AbsolutePath.String srcPath) (AbsolutePath.String dstPath) "bind"
            (Z.lor (Z.lor MS_BIND MS_REC) (Z.lor MS_RDONLY MS_REMOUNT)) "".

(** The type [osFS.LStat] tells for the type bits of a kernel mode. *)
Definition type_of_unix (t : Z) : FileType :=
  if t =? S_IFBLK then Type_Device
  else if t =? S_IFCHR then Type_CharDevice
  else if t =? S_IFDIR then Type_Dir
  else if t =? S_IFIFO then Type_NamedPipe
  else if t =? S_IFLNK then Type_Symlink
  else if t =? S_IFSOCK then Type_Socket
  else Type_File.

(** The type bits of a mode of each type, as the [switch] of
    [osFS.LStat] tells them apart. *)
Definition type_bits (ty : FileType) : Z :=
  match ty with
  | Type_File => 0
  | Type_Dir => ModeDir
  | Type_Symlink => ModeSymlink
  | Type_NamedPipe => ModeNamedPipe
  | Type_Socket => ModeSocket
  | Type_Device => ModeDevice
  | Type_CharDevice => Z.lor ModeDevice ModeCharDevice
  end.

(** Reading the mode Go makes of a kernel mode gives the permission bits
    of that kernel mode. *)
Definition unix_perms_survive (m : Z) : bool :=
  mode_perms (FileMode_of_unix m) =? Z.land m 4095.

(** A test holds on the [count] integers from [z] on. *)
Fixpoint holds_from (f : Z -> bool) (count : nat) (z : Z) : bool :=
  match count with
  | O => true
  | S count' => f z && holds_from f count' (z + 1)
  end.

(** ** The helpers that are not among the sources *)

(** A new entry of the given mode, owned by root. *)
Definition new_inode (mode : Z) (target : string) : Inode :=
  {| ino_info := {| fi_Size := 0; fi_ModTime := 0; fi_Mode := mode;
                    fi_Sys := Some {| st_Uid := 0; st_Gid := 0; st_Rdev := 0 |} |};
     ino_target := target |}.

(** Modelled from the spec: [mkDest], the placer's helper, is not among
    the sources.  It ensures the destination exists and has the same type
    as the source, creating an empty file or an empty directory as
    needed. *)
Definition mkDest_model (dstPath : AbsolutePath.t) (ty : FileType) (h : Host)
  : option error * Host :=
  let name := AbsolutePath.String dstPath in
  match inodes h !! name with
  | Some i =>
    if bool_decide (mode_type (fi_Mode (ino_info i)) = Some ty) then (None, h)
    else (Some (Errorf ErrAssemblyInvalid "placer: destination is of another type (%s)"
                       [ArgPath dstPath]), h)
  | None =>
    let mode := if bool_decide (ty = Type_Dir) then Z.lor ModeDir 493 else 420 in
    (None, set_inodes (insert name (new_inode mode "")) h)
  end.

(** The path, cut after each of its components: ["a/b/c"] gives
    ["a"], ["a/b"] and ["a/b/c"]. *)
Fixpoint path_prefixes (seen rest : string) : list string :=
  match rest with
  | EmptyString => [seen]
  | String c rest' =>
    if Ascii.eqb c "/" then seen :: path_prefixes (seen ++ "/") rest'
    else path_prefixes (seen ++ String c EmptyString) rest'
  end.

(** One step of [MkdirAll_model]: the directory is there, or is made. *)
Definition mkdir_step (base : AbsolutePath.t) (st : option ErrFS * Host) (rel : string)
  : option ErrFS * Host :=
  match st with
  | (Some err, h) => (Some err, h)
  | (None, h) =>
    let name := AbsolutePath.String (Join base (MustRelPath rel)) in
    match inodes h !! name with
    | Some i =>
      if bool_decide (mode_type (fi_Mode (ino_info i)) = Some Type_Dir) then (None, h)
      else (Some (ErrIOUnknown {| Op := "mkdir"; Path := name; Err := ENOTDIR |}), h)
    | None => (None, set_inodes (insert name (new_inode (Z.lor ModeDir 448) "")) h)
    end
  end.

(** Modelled from the spec: [fsOp.MkdirAll] is not among the sources.  It
    ensures that a directory and all its parents exist under the base of
    the driver. *)
Definition MkdirAll_model (fs : FS) (path : RelPath.t) (perms : Z) (h : Host)
  : option ErrFS * Host :=
  fold_left (mkdir_step (BasePath fs)) (path_prefixes "" (RelPath.path path)) (None, h).

(** Modelled from the spec: [cacheapi.ShelfFor] is not among the sources.
    The shelf is the canonical location of one ware, inside the namespace
    of its type. *)
Definition ShelfFor_model (wareID : WareID) : RelPath.t :=
  MustRelPath (ware_Type wareID ++ "/fileset/" ++ ware_Hash wareID).

(** ** Hosts to run the code on *)

(** A host to try the driver on: a file, a symbolic link, and a directory
    the host refuses to look into. *)
Definition driver_host : Host :=
  {| inodes := {[ "/data/file" := new_inode 420 "";
                  "/data/link" := new_inode (Z.lor ModeSymlink 511) "file" ]};
     lookup_faults := {[ "/data/locked/x" := EACCES ]};
     mounts := ∅;
     mount_faults := ∅ |}.

Definition data_fs : osFS := {| basePath := MustAbsolutePath "/data" |}.

(** What the driver says of the file of [driver_host]. *)
Definition file_stat : Metadata :=
  {| Name := MustRelPath "file"; Type_ := Type_File; Perms := 420;
     Uid := 0; Gid := 0; Size := 0; Linkname := "";
     Devmajor := 0; Devminor := 0; Mtime := 0 |}.

(** A host to try the placer on: a ware in a directory, a symbolic link
    to it, and a mount point where the host refuses a read-only remount. *)
Definition placer_host : Host :=
  {| inodes := {[ "/ware" := new_inode (Z.lor ModeDir 493) "";
                  "/ware-link" := new_inode (Z.lor ModeSymlink 511) "/ware" ]};
     lookup_faults := ∅;
     mounts := ∅;
     mount_faults := {[ ("/mnt/denied", 20513) := EPERM ]} |}.

Definition placer_world : World MountCall := {| host := placer_host; trace := [] |}.

Definition root_fs : FS := New (MustAbsolutePath "/").

Definition ware_link_stat : Metadata :=
  {| Name := MustRelPath "ware-link"; Type_ := Type_Symlink; Perms := 511;
     Uid := 0; Gid := 0; Size := 0; Linkname := "/ware";
     Devmajor := 0; Devminor := 0; Mtime := 0 |}.

Definition ware_stat : Metadata :=
  {| Name := MustRelPath "ware"; Type_ := Type_Dir; Perms := 493;
     Uid := 0; Gid := 0; Size := 0; Linkname := "";
     Devmajor := 0; Devminor := 0; Mtime := 0 |}.

(** The host once the mount point is made and the ware is bound to it. *)
Definition bound_host : Host :=
  snd (syscall_Mount "/ware" "/mnt/denied" "bind" (Z.lor MS_BIND MS_REC) ""
         (snd (mkDest_model (MustAbsolutePath "/mnt/denied") Type_Dir placer_host))).

(** The same host where it refuses the bind itself. *)
Definition refusing_host : Host :=
  {| inodes := inodes placer_host;
     lookup_faults := ∅;
     mounts := ∅;
     mount_faults := {[ ("/mnt/denied", 20480) := EPERM ]} |}.

(** The placer's host once the mount point [/mnt/x] is made, once the
    ware is bound to it, and once the bind is made read-only. *)
Definition made_host : Host :=
  snd (mkDest_model (MustAbsolutePath "/mnt/x") Type_Dir placer_host).

Definition ware_bound_host : Host :=
  snd (syscall_Mount "/ware" "/mnt/x" "bind" (Z.lor MS_BIND MS_REC) "" made_host).

Definition ware_readonly_host : Host :=
  snd (syscall_Mount "/ware" "/mnt/x" "bind"
         (Z.lor (Z.lor MS_BIND MS_REC) (Z.lor MS_RDONLY MS_REMOUNT)) "" ware_bound_host).

(** The process of these runs: root, with the usual mask 022. *)
Definition root_proc : Process := {| umask := 18; euid := 0; egid := 0 |}.

(** A cache whose directory of tar wares is taken by a file. *)
Definition blocked_cache_host : Host :=
  {| inodes := {[ "/cache" := new_inode (Z.lor ModeDir 448) "";
                  "/cache/tar" := new_inode 420 "" ]};
     lookup_faults := ∅; mounts := ∅; mount_faults := ∅ |}.

(** The cache of these runs lives under [/cache]; the contexts, filters,
    warehouse addresses and monitors are told apart by their names. *)
Definition cache_fs : FS := New (MustAbsolutePath "/cache").

Definition ware_abc : WareID := {| ware_Type := "tar"; ware_Hash := "abc" |}.
Definition ware_xyz : WareID := {| ware_Type := "tar"; ware_Hash := "xyz" |}.

(** A tool that unpacks one file under the path it is given. *)
Definition unpack_ok : @UnpackFunc string string string string :=
  fun _ wareID path _ _ _ _ h =>
    ((wareID, None), set_inodes (insert (path ++ "/payload") (new_inode 420 "")) h).

(** A tool that gives up after it has written a part of the ware. *)
Definition unpack_failing : @UnpackFunc string string string string :=
  fun _ _ path _ _ _ _ h =>
    (({| ware_Type := ""; ware_Hash := "" |}, Some (ErrOther "warehouse unavailable")),
     set_inodes (insert (path ++ "/partial") (new_inode 420 "")) h).

(** A tool that unpacks another ware than the one asked for. *)
Definition unpack_other : @UnpackFunc string string string string :=
  fun _ _ path _ _ _ _ h =>
    ((ware_xyz, None), set_inodes (insert (path ++ "/payload") (new_inode 420 "")) h).

(** The name of a placement mode. *)
Definition mode_name (placementMode : PlacementMode) : string :=
  match placementMode with
  | Placement_Direct => "direct"
  | Placement_Mount => "mount"
  | Placement_Copy => "copy"
  end.

(** A tool that leaves, under the path it is given, an entry named after
    the placement mode, the filters and the monitor it is given. *)
Definition unpack_probe : @UnpackFunc string string string string :=
  fun _ wareID path filt placementMode _ monitor h =>
    ((wareID, None),
     set_inodes (insert (path ++ "/" ++ mode_name placementMode ++ "," ++ filt ++ ","
                              ++ monitor)
                        (new_inode 420 "")) h).

(** A cache that is empty, and one that has [ware_abc] on its shelf. *)
Definition empty_cache_host : Host :=
  {| inodes := {[ "/cache" := new_inode (Z.lor ModeDir 448) "" ]};
     lookup_faults := ∅; mounts := ∅; mount_faults := ∅ |}.

Definition shelved_cache_host : Host :=
  {| inodes := {[ "/cache" := new_inode (Z.lor ModeDir 448) "";
                  "/cache/tar" := new_inode (Z.lor ModeDir 448) "";
                  "/cache/tar/fileset" := new_inode (Z.lor ModeDir 448) "";
                  "/cache/tar/fileset/abc" := new_inode (Z.lor ModeDir 448) "" ]};
     lookup_faults := ∅; mounts := ∅; mount_faults := ∅ |}.

Definition start (h : Host) : World (@UnpackCall string string string string) :=
  {| host := h; trace := [] |}.

(** One call of the cache in front of a tool. *)
Definition unpack_with (tool : @UnpackFunc string string string string)
  (wareID : WareID) (path : string) (placementMode : PlacementMode) :=
  Unpack MkdirAll_model {| afs := cache_fs; unpackTool := tool |}
         "ctx" wareID path "mtime=keep" placementMode ["file:///warehouse"] "monitor".

(** ** Device numbers: bits and bounds *)

Lemma to_int64_small (x : Z) : - 2 ^ 63 <= x < 2 ^ 63 -> to_int64 x = x.
Proof. intros H. unfold to_int64. rewrite Z.mod_small; lia. Qed.

Lemma to_uint32_small (x : Z) : 0 <= x < 2 ^ 32 -> to_uint32 x = x.
Proof. intros H. unfold to_uint32. now rewrite Z.mod_small. Qed.

Section DevModesBits.

(** A mask below [2^k] only looks at the low [k] bits of its operand. *)
Lemma land_mask_mod (x m k : Z) :
  0 <= k -> 0 <= m < 2 ^ k -> Z.land x m = Z.land (x mod 2 ^ k) m.
Proof.
  intros Hk Hm. apply Z.bits_inj'. intros n Hn.
  rewrite !Z.land_spec.
  destruct (Z.lt_ge_cases n k) as [Hlt | Hge].
  - now rewrite Z.mod_pow2_bits_low.
  - assert (Z.testbit m n = false) as ->.
    { rewrite <- (Z.mod_small m (2 ^ k)) by assumption.
      apply Z.mod_pow2_bits_high. lia. }
    now rewrite !andb_false_r.
Qed.

Lemma land_nonneg_bound (x m : Z) : 0 <= m -> 0 <= Z.land x m <= m.
Proof.
  intros Hm. split.
  - apply Z.land_nonneg. now right.
  - assert (Hd : m - Z.land x m = Z.ldiff m (Z.land x m)).
    { apply Z.sub_nocarry_ldiff. apply Z.bits_inj'. intros n Hn.
      rewrite Z.ldiff_spec, Z.land_spec, Z.bits_0.
      destruct (Z.testbit x n), (Z.testbit m n); reflexivity. }
    assert (0 <= Z.ldiff m (Z.land x m)) by (apply Z.ldiff_nonneg; now left).
    lia.
Qed.

Lemma lor_bound (k a b : Z) :
  0 <= k -> 0 <= a < 2 ^ k -> 0 <= b < 2 ^ k -> 0 <= Z.lor a b < 2 ^ k.
Proof.
  intros Hk Ha Hb. split.
  - apply Z.lor_nonneg. lia.
  - destruct (Z.eq_dec (Z.lor a b) 0) as [-> | Hne]; [lia |].
    assert (0 <= Z.lor a b) by (apply Z.lor_nonneg; lia).
    apply Z.log2_lt_pow2; [lia |].
    rewrite Z.log2_lor by lia.
    destruct (Z.eq_dec a 0) as [-> | Ha0], (Z.eq_dec b 0) as [-> | Hb0];
      try (rewrite Z.lor_0_l in Hne || rewrite Z.lor_0_r in Hne);
      try congruence.
    + assert (Z.log2 b < k) by (apply Z.log2_lt_pow2; lia).
      change (Z.log2 0) with 0. pose proof (Z.log2_nonneg b). lia.
    + assert (Z.log2 a < k) by (apply Z.log2_lt_pow2; lia).
      change (Z.log2 0) with 0. pose proof (Z.log2_nonneg a). lia.
    + assert (Z.log2 a < k) by (apply Z.log2_lt_pow2; lia).
      assert (Z.log2 b < k) by (apply Z.log2_lt_pow2; lia).
      lia.
Qed.

(** Inside [devModesJoin] no shift overflows an [int64] and the result
    already fits 32 bits, so the conversions are the identity. *)
Lemma devModesJoin_unwrapped (major minor : Z) :
  devModesJoin major minor =
  Z.lor (Z.lor (Z.shiftl (Z.land minor 0xfff00) 12)
               (Z.shiftl (Z.land major 0xfff) 8))
        (Z.land minor 0xff).
Proof.
  unfold devModesJoin, shl64.
  pose proof (land_nonneg_bound minor 0xfff00 ltac:(lia)) as H1.
  pose proof (land_nonneg_bound major 0xfff ltac:(lia)) as H2.
  pose proof (land_nonneg_bound minor 0xff ltac:(lia)) as H3.
  rewrite !Z.shiftl_mul_pow2 by lia.
  rewrite !to_int64_small by lia.
  apply to_uint32_small.
  apply lor_bound; [lia | | lia].
  apply lor_bound; lia.
Qed.

Lemma testbit_shiftl_total (a n m : Z) :
  0 <= n -> Z.testbit (Z.shiftl a n) m = (0 <=? m) && Z.testbit a (m - n).
Proof.
  intros Hn. destruct (Z.leb_spec 0 m) as [Hm | Hm].
  - now rewrite Z.shiftl_spec.
  - now rewrite Z.testbit_neg_r.
Qed.

Lemma testbit_shiftr_total (a n m : Z) :
  0 <= n -> Z.testbit (Z.shiftr a n) m = (0 <=? m) && Z.testbit a (m + n).
Proof.
  intros Hn. destruct (Z.leb_spec 0 m) as [Hm | Hm].
  - now rewrite Z.shiftr_spec.
  - now rewrite Z.testbit_neg_r.
Qed.

Lemma testbit_0xff (i : Z) : Z.testbit 0xff i = (0 <=? i) && (i <? 8).
Proof. change 0xff with (Z.ones 8). apply Z.testbit_ones. lia. Qed.

Lemma testbit_0xfff (i : Z) : Z.testbit 0xfff i = (0 <=? i) && (i <? 12).
Proof. change 0xfff with (Z.ones 12). apply Z.testbit_ones. lia. Qed.

Lemma testbit_0xfff00 (i : Z) : Z.testbit 0xfff00 i = (8 <=? i) && (i <? 20).
Proof.
  change 0xfff00 with (Z.shiftl (Z.ones 12) 8).
  rewrite testbit_shiftl_total, Z.testbit_ones by lia.
  destruct (Z.leb_spec 0 i), (Z.leb_spec 0 (i - 8)), (Z.leb_spec 8 i),
    (Z.ltb_spec (i - 8) 12), (Z.ltb_spec i 20); simpl; reflexivity || lia.
Qed.

End DevModesBits.

(** Rewrites the bit at an index of a mask, shift or disjunction into the
  bits of its operands, then splits on the position of the index. *)
Ltac bit_cases :=
rewrite ?Z.lor_spec, ?Z.land_spec, ?testbit_0xff, ?testbit_0xfff,
  ?testbit_0xfff00, ?testbit_shiftl_total, ?testbit_shiftr_total by lia;
rewrite ?Z.lor_spec, ?Z.land_spec, ?testbit_0xff, ?testbit_0xfff,
  ?testbit_0xfff00, ?testbit_shiftl_total, ?testbit_shiftr_total by lia;
repeat match goal with
       | |- context [?a <? ?b] => destruct (Z.ltb_spec a b)
       | |- context [?a <=? ?b] => destruct (Z.leb_spec a b)
       end;
simpl;
rewrite ?andb_true_r, ?andb_false_r, ?orb_false_r, ?orb_false_l;
try reflexivity; try lia;
try (rewrite Z.testbit_neg_r by lia; reflexivity);
try (f_equal; lia).

Section DevModesLayout.

(** The bit layout of the combined number: minor bits 0-7 in bits 0-7,
    major bits 0-11 in bits 8-19, minor bits 8-19 in bits 20-31. *)
Lemma devModesJoin_testbit (major minor n : Z) :
  0 <= n ->
  Z.testbit (devModesJoin major minor) n =
  if n <? 8 then Z.testbit minor n
  else if n <? 20 then Z.testbit major (n - 8)
  else if n <? 32 then Z.testbit minor (n - 12)
  else false.
Proof.
  intros Hn. rewrite devModesJoin_unwrapped. bit_cases.
Qed.

Lemma devModesJoin_range (major minor : Z) :
  0 <= devModesJoin major minor < 2 ^ 32.
Proof. unfold devModesJoin, to_uint32. apply Z.mod_pos_bound. lia. Qed.

(** The masks of [devModesSplit] keep both results far below [2^63]. *)
Lemma devModesSplit_unwrapped (rdev : Z) :
  devModesSplit rdev =
  (Z.land (Z.shiftr rdev 8) 0xff,
   Z.lor (Z.land rdev 0xff) (Z.land (Z.shiftr rdev 12) 0xfff00)).
Proof.
  unfold devModesSplit.
  pose proof (land_nonneg_bound (Z.shiftr rdev 8) 0xff ltac:(lia)) as H1.
  pose proof (land_nonneg_bound rdev 0xff ltac:(lia)) as H2.
  pose proof (land_nonneg_bound (Z.shiftr rdev 12) 0xfff00 ltac:(lia)) as H3.
  assert (0 <= Z.lor (Z.land rdev 0xff) (Z.land (Z.shiftr rdev 12) 0xfff00)
          < 2 ^ 20) as H4 by (apply lor_bound; lia).
  rewrite !to_int64_small by lia. reflexivity.
Qed.

(** What decoding makes of an encoded pair: the minor number comes back
    with its low 20 bits, the major number with its low 8 bits only. *)
Lemma devModesSplit_Join (major minor : Z) :
  devModesSplit (devModesJoin major minor) =
  (major mod 2 ^ 8, minor mod 2 ^ 20).
Proof.
  rewrite devModesSplit_unwrapped. f_equal.
  - apply Z.bits_inj'. intros n Hn.
    rewrite Z.testbit_mod_pow2 by lia.
    rewrite Z.land_spec, testbit_shiftr_total, devModesJoin_testbit by lia.
    bit_cases.
  - apply Z.bits_inj'. intros n Hn.
    rewrite Z.testbit_mod_pow2 by lia.
    rewrite Z.lor_spec, !Z.land_spec, testbit_shiftr_total by lia.
    destruct (Z.ltb_spec n 8) as [H8 | H8].
    + rewrite devModesJoin_testbit by lia. bit_cases.
    + rewrite (devModesJoin_testbit _ _ (n + 12)) by lia. bit_cases.
Qed.

(** The round trip holds as long as the major number fits eight bits. *)
Lemma devModes_roundtrip_major8 (major minor : Z) :
  0 <= major < 2 ^ 8 -> 0 <= minor < 2 ^ 20 ->
  devModesSplit (devModesJoin major minor) = (major, minor).
Proof.
  intros HM Hm. rewrite devModesSplit_Join.
  now rewrite !Z.mod_small by lia.
Qed.

End DevModesLayout.

(** ** Device numbers: the claims *)

(** C10: [devModesJoin] is total and its result, a 32-bit number, depends
    only on the major number modulo 2^12 and on the minor number modulo
    2^20: two pairs that agree there are encoded alike, whatever their
    higher bits are. *)
Theorem devModesJoin_discards_high_bits (major minor major' minor' : Z) :
  major mod 2 ^ 12 = major' mod 2 ^ 12 ->
  minor mod 2 ^ 20 = minor' mod 2 ^ 20 ->
  is_uint32 (devModesJoin major minor) /\
  devModesJoin major minor = devModesJoin major' minor'.
Proof.
  intros HM Hm. split; [apply devModesJoin_range |].
  unfold devModesJoin.
  rewrite (land_mask_mod minor 0xfff00 20), (land_mask_mod minor' 0xfff00 20) by lia.
  rewrite (land_mask_mod minor 0xff 20), (land_mask_mod minor' 0xff 20) by lia.
  rewrite (land_mask_mod major 0xfff 12), (land_mask_mod major' 0xfff 12) by lia.
  now rewrite HM, Hm.
Qed.

Lemma devModesJoin_discards_high_bits_witness :
  (2 ^ 62 + 5) mod 2 ^ 12 = 5 mod 2 ^ 12 /\
  (-1) mod 2 ^ 20 = (2 ^ 20 - 1) mod 2 ^ 20 /\
  is_uint32 (devModesJoin (2 ^ 62 + 5) (-1)) /\
  devModesJoin (2 ^ 62 + 5) (-1) = devModesJoin 5 (2 ^ 20 - 1).
Proof.
  split; [reflexivity |]. split; [reflexivity |].
  apply (devModesJoin_discards_high_bits (2 ^ 62 + 5) (-1) 5 (2 ^ 20 - 1));
    reflexivity.
Defined.

(** C1, at a pair inside the ranges: the major number 256 with the minor
    number 0 is encoded as 2^16 and decoded as the pair (0, 0), because
    [devModesSplit] keeps eight bits of the major number where
    [devModesJoin] stores twelve. *)
Theorem devModes_roundtrip_drops_major_256 :
  0 <= 256 < 2 ^ 12 /\ 0 <= 0 < 2 ^ 20 /\
  devModesJoin 256 0 = 2 ^ 16 /\
  devModesSplit (devModesJoin 256 0) = (0, 0).
Proof. repeat split; try lia; reflexivity. Qed.

(** X1: inside the 32 bits of the combined number, [devModesJoin] puts
    bits 0-7 of the minor number at bits 0-7, bits 0-11 of the major
    number at bits 8-19, and bits 8-19 of the minor number at bits
    20-31. *)
Theorem devModesJoin_layout (major minor n : Z) :
  0 <= n < 32 ->
  Z.testbit (devModesJoin major minor) n =
  if n <? 8 then Z.testbit minor n
  else if n <? 20 then Z.testbit major (n - 8)
  else Z.testbit minor (n - 12).
Proof.
  intros Hn. rewrite devModesJoin_testbit by lia.
  destruct (n <? 8); [reflexivity |]. destruct (n <? 20); [reflexivity |].
  destruct (Z.ltb_spec n 32); [reflexivity | lia].
Qed.

Lemma devModesJoin_layout_witness :
  0 <= 19 < 32 /\
  Z.testbit (devModesJoin 2048 0) 19 = Z.testbit 2048 (19 - 8).
Proof.
  split; [lia |]. apply (devModesJoin_layout 2048 0 19). lia.
Defined.

(** X2: decoding an encoded pair gives the minor number modulo 2^20 and
    the major number modulo 2^8. *)
Theorem devModes_decode_encode (major minor : Z) :
  devModesSplit (devModesJoin major minor) = (major mod 2 ^ 8, minor mod 2 ^ 20).
Proof. apply devModesSplit_Join. Qed.

(** ** Permission bits *)

Lemma perms_survive_all :
  forallb perms_survive (map Z.of_nat (seq 0 4096)) = true.
Proof. vm_compute. reflexivity. Qed.

(** X3: the twelve permission bits survive the way to the host's mode
    and back: for every [fs.Perms] value below 2^12, reading the mode that
    [permsToOs] makes, as [LStat] reads it, gives the value back. *)
Theorem permsToOs_preserves_twelve_bits (perms : Z) :
  0 <= perms < 2 ^ 12 -> mode_perms (permsToOs perms) = perms.
Proof.
  intros Hp. apply Z.eqb_eq.
  apply (proj1 (forallb_forall perms_survive (map Z.of_nat (seq 0 4096)))
               perms_survive_all).
  apply in_map_iff. exists (Z.to_nat perms). split; [lia |].
  apply in_seq. lia.
Qed.

Lemma permsToOs_preserves_twelve_bits_witness :
  0 <= 3565 < 2 ^ 12 /\ mode_perms (permsToOs 3565) = 3565.
Proof.
  split; [lia |]. apply (permsToOs_preserves_twelve_bits 3565). lia.
Defined.

(** ** The driver: the claims *)

Section ReadlinkFacts.

Variable afs : osFS.
Variable path : RelPath.t.
Variable h : Host.

(** [osFS.Readlink] by the result of the host call, case by case of its
    [switch]. *)
Lemma Readlink_by_host_result :
  osFS_Readlink afs path h =
  match os_Readlink (os_name afs path) h with
  | inl target => (target, true, None)
  | inr err =>
    match Err err with
    | ENOENT => ("", false, Some (ErrNotExists path))
    | EINVAL => ("", false, None)
    | _ => ("", false, Some (ErrIOUnknown err))
    end
  end.
Proof.
  unfold osFS_Readlink, IsNotExist.
  destruct (os_Readlink (os_name afs path) h) as [target | [op p e]]; [reflexivity |].
  destruct e; reflexivity.
Qed.

(** C9: [Readlink] returns the empty target, [false] and no error for an
    entry that is not a symbolic link; a not-found error for an absent
    entry; the target, [true] and no error for a symbolic link; and an I/O
    error when the host fails the call for any other reason. *)
Theorem Readlink_cases :
  (forall i, lookup_faults h !! os_name afs path = None ->
             inodes h !! os_name afs path = Some i -> is_symlink i = false ->
             osFS_Readlink afs path h = ("", false, None)) /\
  (lookup_faults h !! os_name afs path = None ->
   inodes h !! os_name afs path = None ->
   osFS_Readlink afs path h = ("", false, Some (ErrNotExists path))) /\
  (forall i, lookup_faults h !! os_name afs path = None ->
             inodes h !! os_name afs path = Some i -> is_symlink i = true ->
             osFS_Readlink afs path h = (ino_target i, true, None)) /\
  (forall e, lookup_faults h !! os_name afs path = Some e ->
             e <> ENOENT -> e <> EINVAL ->
             osFS_Readlink afs path h =
             ("", false,
              Some (ErrIOUnknown {| Op := "readlink"; Path := os_name afs path; Err := e |}))
             /\ is_io_error (snd (osFS_Readlink afs path h))).
Proof.
  rewrite Readlink_by_host_result. unfold os_Readlink.
  split; [| split; [| split]].
  - intros i -> -> ->. reflexivity.
  - intros -> ->. reflexivity.
  - intros i -> -> ->. reflexivity.
  - intros e -> Hne1 Hne2. destruct e; try congruence; split; reflexivity || exact I.
Qed.

End ReadlinkFacts.

Lemma Readlink_cases_witness :
  osFS_Readlink data_fs (MustRelPath "file") driver_host = ("", false, None) /\
  osFS_Readlink data_fs (MustRelPath "gone") driver_host =
    ("", false, Some (ErrNotExists (MustRelPath "gone"))) /\
  osFS_Readlink data_fs (MustRelPath "link") driver_host = ("file", true, None) /\
  is_io_error (snd (osFS_Readlink data_fs (MustRelPath "locked/x") driver_host)).
Proof.
  split; [| split; [| split]].
  - apply (proj1 (Readlink_cases data_fs (MustRelPath "file") driver_host)
                 (new_inode 420 "")); reflexivity.
  - apply (proj1 (proj2 (Readlink_cases data_fs (MustRelPath "gone") driver_host)));
      reflexivity.
  - apply (proj1 (proj2 (proj2 (Readlink_cases data_fs (MustRelPath "link") driver_host)))
                 (new_inode (Z.lor ModeSymlink 511) "file")); reflexivity.
  - apply (proj2 (proj2 (proj2 (Readlink_cases data_fs (MustRelPath "locked/x") driver_host)))
                 EACCES); [reflexivity | discriminate | discriminate].
Defined.

(** ** The bind placer: the claims *)

Section PlacerFacts.

Variable rootFs : FS.
Variable mkDest : AbsolutePath.t -> FileType -> Host -> option error * Host.

(** C8: when the stat of the source succeeds and the source is neither a
    plain file nor a directory, [BindPlacer] returns an assembly-invalid
    error and no cleanup function, and leaves the world as it found it:
    the mount point is not made and no mount call is issued. *)
Theorem BindPlacer_rejects_other_types
  (srcPath dstPath : AbsolutePath.t) (writable : bool)
  (w : World MountCall) (srcStat : Metadata) :
  LStat rootFs (CoerceRelative srcPath) (host w) = Returns (Some srcStat, None) ->
  Type_ srcStat <> Type_File ->
  Type_ srcStat <> Type_Dir ->
  BindPlacer rootFs mkDest srcPath dstPath writable w =
  (Returns (None,
            Some (Errorf ErrAssemblyInvalid
                         "placer: source may only be dir or plain file (%s is %s)"
                         [ArgPath srcPath])),
   w).
Proof.
  intros Hstat Hfile Hdir.
  unfold BindPlacer, bind, look. rewrite Hstat.
  destruct (Type_ srcStat); congruence || reflexivity.
Qed.

(** What [BindPlacer] does, with a source it accepts, once the mount
    point is there and the bind has succeeded. *)
Lemma BindPlacer_after_bind
  (srcPath dstPath : AbsolutePath.t) (writable : bool)
  (w : World MountCall) (srcStat : Metadata) (h1 h2 : Host) :
  LStat rootFs (CoerceRelative srcPath) (host w) = Returns (Some srcStat, None) ->
  Type_ srcStat = Type_File \/ Type_ srcStat = Type_Dir ->
  mkDest dstPath (Type_ srcStat) (host w) = (None, h1) ->
  syscall_Mount (AbsolutePath.String srcPath) (AbsolutePath.String dstPath) "bind"
                (Z.lor MS_BIND MS_REC) "" h1 = (None, h2) ->
  BindPlacer rootFs mkDest srcPath dstPath writable w =
  (if negb writable then
     let* err := mount_bind srcPath dstPath
                   (Z.lor (Z.lor MS_BIND MS_REC) (Z.lor MS_RDONLY MS_REMOUNT)) in
     match err with
     | Some err =>
       ret (None, Some (Errorf ErrAssemblyInvalid "error placing with bind mount: %s"
                               [ArgErrno err]))
     | None => ret (Some (bind_cleanup dstPath), None)
     end
   else ret (Some (bind_cleanup dstPath), None))
    {| host := h2;
       trace := trace w ++ [CallMount (AbsolutePath.String srcPath)
                                      (AbsolutePath.String dstPath) "bind"
                                      (Z.lor MS_BIND MS_REC) ""] |}.
Proof.
  intros Hstat Hty Hdest Hbind.
  unfold BindPlacer, bind, look, act, mount_bind, emit, ret.
  rewrite Hstat.
  destruct Hty as [Hty | Hty]; rewrite Hty in *;
    cbv beta iota; rewrite Hdest; cbn [fst snd host trace]; rewrite Hbind;
    cbn [fst snd host trace]; reflexivity.
Qed.

(** C3, as the code has it: with [writable=false], when the bind succeeds
    and the read-only remount fails, [BindPlacer] returns an
    assembly-invalid error and no cleanup function; the two mount calls are
    all it has issued, none of them an unmount, and the writable bind is
    still mounted at the destination. *)
Theorem BindPlacer_remount_failure_keeps_bind
  (srcPath dstPath : AbsolutePath.t)
  (w : World MountCall) (srcStat : Metadata) (h1 h2 h3 : Host) (e : Errno) :
  LStat rootFs (CoerceRelative srcPath) (host w) = Returns (Some srcStat, None) ->
  Type_ srcStat = Type_File \/ Type_ srcStat = Type_Dir ->
  mkDest dstPath (Type_ srcStat) (host w) = (None, h1) ->
  syscall_Mount (AbsolutePath.String srcPath) (AbsolutePath.String dstPath) "bind"
                (Z.lor MS_BIND MS_REC) "" h1 = (None, h2) ->
  syscall_Mount (AbsolutePath.String srcPath) (AbsolutePath.String dstPath) "bind"
                (Z.lor (Z.lor MS_BIND MS_REC) (Z.lor MS_RDONLY MS_REMOUNT)) "" h2
  = (Some e, h3) ->
  BindPlacer rootFs mkDest srcPath dstPath false w =
  (Returns (None,
            Some (Errorf ErrAssemblyInvalid "error placing with bind mount: %s"
                         [ArgErrno e])),
   {| host := h3;
      trace := trace w ++
               [CallMount (AbsolutePath.String srcPath) (AbsolutePath.String dstPath)
                          "bind" (Z.lor MS_BIND MS_REC) "";
                CallMount (AbsolutePath.String srcPath) (AbsolutePath.String dstPath)
                          "bind" (Z.lor (Z.lor MS_BIND MS_REC) (Z.lor MS_RDONLY MS_REMOUNT))
                          ""] |}) /\
  mounts h3 !! AbsolutePath.String dstPath =
  Some {| mnt_source := AbsolutePath.String srcPath; mnt_readonly := false |}.
Proof.
  intros Hstat Hty Hdest Hbind Hremount. split.
  - rewrite (BindPlacer_after_bind _ _ _ _ _ _ _ Hstat Hty Hdest Hbind).
    unfold bind, mount_bind, emit, ret. cbn [negb fst snd host trace].
    rewrite Hremount. cbn [fst snd]. now rewrite <- app_assoc.
  - unfold syscall_Mount in Hbind, Hremount.
    destruct (mount_faults h1 !! _) in Hbind; [discriminate |].
    change (has_flag (Z.lor MS_BIND MS_REC) MS_REMOUNT) with false in Hbind.
    injection Hbind as <-.
    assert (Hthere :
      mounts (set_mounts (insert (AbsolutePath.String dstPath)
                {| mnt_source := AbsolutePath.String srcPath; mnt_readonly := false |}) h1)
        !! AbsolutePath.String dstPath =
      Some {| mnt_source := AbsolutePath.String srcPath; mnt_readonly := false |})
      by apply lookup_insert_eq.
    destruct (mount_faults _ !! _) in Hremount.
    + now injection Hremount as _ <-.
    + change (has_flag (Z.lor (Z.lor MS_BIND MS_REC) (Z.lor MS_RDONLY MS_REMOUNT))
                       MS_REMOUNT) with true in Hremount.
      cbv iota in Hremount. rewrite Hthere in Hremount. discriminate.
Qed.

End PlacerFacts.

Lemma BindPlacer_rejects_other_types_witness :
  LStat root_fs (CoerceRelative (MustAbsolutePath "/ware-link")) placer_host
  = Returns (Some ware_link_stat, None) /\
  BindPlacer root_fs mkDest_model
             (MustAbsolutePath "/ware-link") (MustAbsolutePath "/mnt/x") false
             placer_world =
  (Returns (None,
            Some (Errorf ErrAssemblyInvalid
                         "placer: source may only be dir or plain file (%s is %s)"
                         [ArgPath (MustAbsolutePath "/ware-link")])),
   placer_world).
Proof.
  split; [vm_compute; reflexivity |].
  apply (BindPlacer_rejects_other_types root_fs mkDest_model
           (MustAbsolutePath "/ware-link") (MustAbsolutePath "/mnt/x") false
           placer_world ware_link_stat).
  - vm_compute. reflexivity.
  - discriminate.
  - discriminate.
Defined.

(** On the same host a writable placement succeeds, and the function it
    returns takes the mount away again. *)
Example BindPlacer_writable_then_cleanup :
  mounts (host (snd (BindPlacer root_fs mkDest_model (MustAbsolutePath "/ware")
                                (MustAbsolutePath "/mnt/x") true placer_world)))
    !! "/mnt/x"
  = Some {| mnt_source := "/ware"; mnt_readonly := false |} /\
  mounts (host (snd (bind_cleanup (MustAbsolutePath "/mnt/x")
                       (snd (BindPlacer root_fs mkDest_model (MustAbsolutePath "/ware")
                                        (MustAbsolutePath "/mnt/x") true placer_world)))))
    !! "/mnt/x"
  = None.
Proof. vm_compute. split; reflexivity. Qed.

(** A read-only placement ends in a read-only mount where the host lets
    the remount through. *)
Example BindPlacer_readonly :
  mounts (host (snd (BindPlacer root_fs mkDest_model (MustAbsolutePath "/ware")
                                (MustAbsolutePath "/mnt/x") false placer_world)))
    !! "/mnt/x"
  = Some {| mnt_source := "/ware"; mnt_readonly := true |}.
Proof. vm_compute. reflexivity. Qed.

(** C3, as the claim states it, fails where the host refuses the
    remount: [BindPlacer] returns the error after two mount calls and no
    unmount call, and the destination is still a writable bind mount of
    the source. *)
Lemma BindPlacer_remount_failure_no_unmount :
  fst (BindPlacer root_fs mkDest_model (MustAbsolutePath "/ware")
                  (MustAbsolutePath "/mnt/denied") false placer_world)
  = Returns (None, Some (Errorf ErrAssemblyInvalid "error placing with bind mount: %s"
                                [ArgErrno EPERM])) /\
  trace (snd (BindPlacer root_fs mkDest_model (MustAbsolutePath "/ware")
                         (MustAbsolutePath "/mnt/denied") false placer_world))
  = [CallMount "/ware" "/mnt/denied" "bind" 20480 "";
     CallMount "/ware" "/mnt/denied" "bind" 20513 ""] /\
  mounts (host (snd (BindPlacer root_fs mkDest_model (MustAbsolutePath "/ware")
                                (MustAbsolutePath "/mnt/denied") false placer_world)))
    !! "/mnt/denied"
  = Some {| mnt_source := "/ware"; mnt_readonly := false |}.
Proof. vm_compute. repeat split. Qed.

Lemma BindPlacer_remount_failure_keeps_bind_witness :
  BindPlacer root_fs mkDest_model (MustAbsolutePath "/ware")
             (MustAbsolutePath "/mnt/denied") false placer_world =
  (Returns (None, Some (Errorf ErrAssemblyInvalid "error placing with bind mount: %s"
                               [ArgErrno EPERM])),
   {| host := bound_host;
      trace := [] ++
               [CallMount "/ware" "/mnt/denied" "bind" (Z.lor MS_BIND MS_REC) "";
                CallMount "/ware" "/mnt/denied" "bind"
                          (Z.lor (Z.lor MS_BIND MS_REC) (Z.lor MS_RDONLY MS_REMOUNT)) ""] |}) /\
  mounts bound_host !! "/mnt/denied" =
  Some {| mnt_source := "/ware"; mnt_readonly := false |}.
Proof.
  apply (BindPlacer_remount_failure_keeps_bind root_fs mkDest_model
           (MustAbsolutePath "/ware") (MustAbsolutePath "/mnt/denied")
           placer_world ware_stat
           (snd (mkDest_model (MustAbsolutePath "/mnt/denied") Type_Dir placer_host))
           bound_host bound_host EPERM).
  - vm_compute. reflexivity.
  - right. reflexivity.
  - vm_compute. reflexivity.
  - vm_compute. reflexivity.
  - vm_compute. reflexivity.
Defined.

(** ** The cache: the claims *)

Section CacheFacts.

Context {Ctx Filters Warehouse Monitor : Type}.
Variable MkdirAll : FS -> RelPath.t -> Z -> Host -> option ErrFS * Host.

(** The run of [cache.Unpack] when the cache directories cannot be made:
    the tool is not called. *)
Lemma Unpack_when_init_fails
  (c : cache) (ctx : Ctx) (wareID : WareID) (path : string) (filt : Filters)
  (placementMode : PlacementMode) (warehouses : list Warehouse) (monitor : Monitor)
  (w : World UnpackCall) (err : ErrFS) (h1 : Host) :
  MkdirAll (afs c) (MustRelPath (ware_Type wareID ++ "/fileset")) 448 (host w)
  = (Some err, h1) ->
  Unpack MkdirAll c ctx wareID path filt placementMode warehouses monitor w =
  (Returns ({| ware_Type := ""; ware_Hash := "" |},
            Some (Errorf ExitLocalCacheProblem "cannot initialize cache dirs: %s"
                         [ArgErrFS err])),
   {| host := h1; trace := trace w |}).
Proof.
  intros Hinit. unfold Unpack, bind, act, ret. now rewrite Hinit.
Qed.

(** The run of [cache.Unpack] once the cache directories are there: one
    call of the tool, whose results are returned as they come. *)
Lemma Unpack_when_init_succeeds
  (c : cache) (ctx : Ctx) (wareID : WareID) (path : string) (filt : Filters)
  (placementMode : PlacementMode) (warehouses : list Warehouse) (monitor : Monitor)
  (w : World UnpackCall) (h1 : Host) :
  MkdirAll (afs c) (MustRelPath (ware_Type wareID ++ "/fileset")) 448 (host w)
  = (None, h1) ->
  Unpack MkdirAll c ctx wareID path filt placementMode warehouses monitor w =
  (Returns (fst (unpackTool c ctx wareID (tmpPathStr c) filt Placement_Direct
                            warehouses monitor h1)),
   {| host := snd (unpackTool c ctx wareID (tmpPathStr c) filt Placement_Direct
                              warehouses monitor h1);
      trace := trace w ++
               [{| uc_ctx := ctx; uc_wareID := wareID; uc_path := tmpPathStr c;
                   uc_filt := filt; uc_placementMode := Placement_Direct;
                   uc_warehouses := warehouses; uc_monitor := monitor |}] |}).
Proof.
  intros Hinit. unfold Unpack, bind, act, call_unpackTool, emit, ret.
  rewrite Hinit. cbn [fst snd host trace].
  destruct (unpackTool c ctx wareID (tmpPathStr c) filt Placement_Direct
                       warehouses monitor h1) as [[resultWareID [e |]] h2];
    reflexivity.
Qed.

(** C7: whatever placement mode the caller asks for, every call of the
    tool that [cache.Unpack] makes has the placement mode
    [Placement_Direct] and the caller's filters and monitor.  When the
    cache directories cannot be made the tool is not run; otherwise the
    run is one application of the tool to the context, the WareID, the
    path [tmpPathStr], the caller's filters, [Placement_Direct], the
    caller's warehouses and the caller's monitor: the result and the host
    of the run are those of that application, and it is the one call
    entered in the record. *)
Theorem Unpack_calls_tool_in_direct_mode
  (c : cache) (ctx : Ctx) (wareID : WareID) (path : string) (filt : Filters)
  (placementMode : PlacementMode) (warehouses : list Warehouse) (monitor : Monitor)
  (w : World UnpackCall) :
  Unpack MkdirAll c ctx wareID path filt placementMode warehouses monitor w =
  match MkdirAll (afs c) (MustRelPath (ware_Type wareID ++ "/fileset")) 448 (host w) with
  | (Some err, h1) =>
    (Returns ({| ware_Type := ""; ware_Hash := "" |},
              Some (Errorf ExitLocalCacheProblem "cannot initialize cache dirs: %s"
                           [ArgErrFS err])),
     {| host := h1; trace := trace w |})
  | (None, h1) =>
    (Returns (fst (unpackTool c ctx wareID (tmpPathStr c) filt Placement_Direct
                              warehouses monitor h1)),
     {| host := snd (unpackTool c ctx wareID (tmpPathStr c) filt Placement_Direct
                                warehouses monitor h1);
        trace := trace w ++
                 [{| uc_ctx := ctx; uc_wareID := wareID; uc_path := tmpPathStr c;
                     uc_filt := filt; uc_placementMode := Placement_Direct;
                     uc_warehouses := warehouses; uc_monitor := monitor |}] |})
  end /\
  trace (snd (Unpack MkdirAll c ctx wareID path filt placementMode warehouses monitor w))
  = (trace w ++
     match fst (MkdirAll (afs c) (MustRelPath (ware_Type wareID ++ "/fileset")) 448
                         (host w)) with
     | Some _ => []
     | None => [{| uc_ctx := ctx; uc_wareID := wareID; uc_path := tmpPathStr c;
                   uc_filt := filt; uc_placementMode := Placement_Direct;
                   uc_warehouses := warehouses; uc_monitor := monitor |}]
     end)%list.
Proof.
  destruct (MkdirAll (afs c) (MustRelPath (ware_Type wareID ++ "/fileset")) 448 (host w))
    as [[err |] h1] eqn:Hinit.
  - rewrite (Unpack_when_init_fails _ _ _ _ _ _ _ _ _ _ _ Hinit).
    cbn [fst snd trace]. now rewrite app_nil_r.
  - rewrite (Unpack_when_init_succeeds _ _ _ _ _ _ _ _ _ _ Hinit).
    split; reflexivity.
Qed.

(** C6, as the code has it: when the tool succeeds, [cache.Unpack]
    returns the WareID the tool returned and no error, whether or not it
    is the WareID that was asked for. *)
Theorem Unpack_returns_the_tools_WareID
  (c : cache) (ctx : Ctx) (wareID : WareID) (path : string) (filt : Filters)
  (placementMode : PlacementMode) (warehouses : list Warehouse) (monitor : Monitor)
  (w : World UnpackCall) (h1 h2 : Host) (resultWareID : WareID) :
  MkdirAll (afs c) (MustRelPath (ware_Type wareID ++ "/fileset")) 448 (host w)
  = (None, h1) ->
  unpackTool c ctx wareID (tmpPathStr c) filt Placement_Direct warehouses monitor h1
  = ((resultWareID, None), h2) ->
  fst (Unpack MkdirAll c ctx wareID path filt placementMode warehouses monitor w)
  = Returns (resultWareID, None).
Proof.
  intros Hinit Htool.
  rewrite (Unpack_when_init_succeeds _ _ _ _ _ _ _ _ _ _ Hinit).
  now rewrite Htool.
Qed.

End CacheFacts.

Lemma Unpack_calls_tool_in_direct_mode_witness :
  inodes (host (snd (unpack_with unpack_probe ware_abc "/dst" Placement_Copy
                                 (start empty_cache_host))))
    !! "/cache/direct,mtime=keep,monitor"
  = Some (new_inode 420 "") /\
  inodes (host (snd (unpack_with unpack_probe ware_abc "/dst" Placement_Copy
                                 (start empty_cache_host))))
    !! "/cache/copy,mtime=keep,monitor"
  = None /\
  fst (unpack_with unpack_probe ware_abc "/dst" Placement_Copy (start empty_cache_host))
  = Returns (ware_abc, None).
Proof.
  unfold unpack_with.
  rewrite (proj1 (Unpack_calls_tool_in_direct_mode MkdirAll_model
                    {| afs := cache_fs; unpackTool := unpack_probe |}
                    "ctx" ware_abc "/dst" "mtime=keep" Placement_Copy
                    ["file:///warehouse"] "monitor" (start empty_cache_host))).
  vm_compute. repeat split.
Defined.

(** C2, where the shelf of the ware is there: [cache.Unpack] calls the
    tool all the same, and a second call for the same ware calls it a
    second time. *)
Theorem Unpack_of_shelved_ware_calls_tool :
  shelf_exists ShelfFor_model {| afs := cache_fs; unpackTool := unpack_ok |} ware_abc
               shelved_cache_host /\
  map uc_wareID
      (trace (snd (unpack_with unpack_ok ware_abc "/dst" Placement_Mount
                               (start shelved_cache_host))))
  = [ware_abc] /\
  map uc_wareID
      (trace (snd (unpack_with unpack_ok ware_abc "/dst" Placement_Mount
                     (snd (unpack_with unpack_ok ware_abc "/dst" Placement_Mount
                                       (start shelved_cache_host))))))
  = [ware_abc; ware_abc].
Proof.
  split; [| split].
  - exists (new_inode (Z.lor ModeDir 448) ""). vm_compute. reflexivity.
  - vm_compute. reflexivity.
  - vm_compute. reflexivity.
Qed.

(** C4, on two calls for two wares and two destinations: both hand the
    tool the same path, the base of the cache itself. *)
Theorem Unpack_stages_every_ware_at_the_base :
  map uc_path
      (trace (snd (unpack_with unpack_ok ware_xyz "/dst2" Placement_Mount
                     (snd (unpack_with unpack_ok ware_abc "/dst1" Placement_Mount
                                       (start empty_cache_host))))))
  = ["/cache"; "/cache"].
Proof. vm_compute. reflexivity. Qed.

(** C5, with a tool that fails after writing: [cache.Unpack] returns the
    error of the tool as it is, and what the tool wrote under the path it
    was given is still on the host afterwards, as is that path. *)
Theorem Unpack_keeps_staging_after_failure :
  fst (unpack_with unpack_failing ware_abc "/dst" Placement_Mount (start empty_cache_host))
  = Returns ({| ware_Type := ""; ware_Hash := "" |}, Some (ErrOther "warehouse unavailable")) /\
  map uc_path
      (trace (snd (unpack_with unpack_failing ware_abc "/dst" Placement_Mount
                               (start empty_cache_host))))
  = ["/cache"] /\
  inodes (host (snd (unpack_with unpack_failing ware_abc "/dst" Placement_Mount
                                 (start empty_cache_host)))) !! "/cache/partial"
  = Some (new_inode 420 "") /\
  inodes (host (snd (unpack_with unpack_failing ware_abc "/dst" Placement_Mount
                                 (start empty_cache_host)))) !! "/cache"
  = Some (new_inode (Z.lor ModeDir 448) "").
Proof. vm_compute. repeat split. Qed.

(** C6, as the claim states it, fails with a tool that unpacks another
    ware: [cache.Unpack] returns that other WareID and no error. *)
Lemma Unpack_mismatch_is_not_an_error :
  fst (unpack_with unpack_other ware_abc "/dst" Placement_Mount (start empty_cache_host))
  = Returns (ware_xyz, None) /\
  ware_xyz <> ware_abc.
Proof. split; [vm_compute; reflexivity | discriminate]. Qed.

Lemma Unpack_returns_the_tools_WareID_witness :
  fst (unpack_with unpack_other ware_abc "/dst" Placement_Mount (start empty_cache_host))
  = Returns (ware_xyz, None).
Proof.
  apply (Unpack_returns_the_tools_WareID MkdirAll_model
           {| afs := cache_fs; unpackTool := unpack_other |}
           "ctx" ware_abc "/dst" "mtime=keep" Placement_Mount ["file:///warehouse"]
           "monitor" (start empty_cache_host)
           (snd (MkdirAll_model cache_fs (MustRelPath "tar/fileset") 448 empty_cache_host))
           (snd (unpack_other "ctx" ware_abc "/cache" "mtime=keep" Placement_Direct
                              ["file:///warehouse"] "monitor"
                              (snd (MkdirAll_model cache_fs (MustRelPath "tar/fileset") 448
                                                   empty_cache_host))))
           ware_xyz).
  - vm_compute. reflexivity.
  - vm_compute. reflexivity.
Defined.

(** ** Device numbers: further properties *)

Lemma testbit_high (x k n : Z) :
  0 <= x < 2 ^ k -> k <= n -> Z.testbit x n = false.
Proof.
  intros Hx Hn. destruct (Z.lt_ge_cases k 0) as [Hk | Hk].
  - rewrite Z.pow_neg_r in Hx by lia. lia.
  - rewrite <- (Z.mod_small x (2 ^ k)) by assumption.
    apply Z.mod_pow2_bits_high. lia.
Qed.

Lemma testbit_0xfff0ffff (i : Z) :
  Z.testbit 0xfff0ffff i = (0 <=? i) && ((i <? 16) || (20 <=? i)) && (i <? 32).
Proof.
  change 0xfff0ffff with (Z.lor (Z.ones 16) (Z.shiftl (Z.ones 12) 20)).
  rewrite Z.lor_spec, testbit_shiftl_total, !Z.testbit_ones by lia.
  destruct (Z.leb_spec 0 i), (Z.ltb_spec i 16), (Z.leb_spec 20 i),
    (Z.leb_spec 0 (i - 20)), (Z.ltb_spec (i - 20) 12), (Z.ltb_spec i 32);
    simpl; reflexivity || lia.
Qed.

(** X4: on the supported ranges [devModesJoin] loses nothing: two pairs
    with the same combined number are the same pair. *)
Theorem devModesJoin_injective (major minor major' minor' : Z) :
  0 <= major < 2 ^ 12 -> 0 <= minor < 2 ^ 20 ->
  0 <= major' < 2 ^ 12 -> 0 <= minor' < 2 ^ 20 ->
  devModesJoin major minor = devModesJoin major' minor' ->
  major = major' /\ minor = minor'.
Proof.
  intros HM Hm HM' Hm' Heq. split; apply Z.bits_inj'; intros n Hn.
  - destruct (Z.lt_ge_cases n 12) as [Hlt | Hge].
    + pose proof (devModesJoin_testbit major minor (n + 8) ltac:(lia)) as H1.
      pose proof (devModesJoin_testbit major' minor' (n + 8) ltac:(lia)) as H2.
      rewrite Heq in H1. rewrite H1 in H2.
      destruct (Z.ltb_spec (n + 8) 8); [lia |].
      destruct (Z.ltb_spec (n + 8) 20); [| lia].
      now replace (n + 8 - 8) with n in H2 by lia.
    + now rewrite (testbit_high major 12), (testbit_high major' 12).
  - destruct (Z.lt_ge_cases n 8) as [Hlt | Hge].
    + pose proof (devModesJoin_testbit major minor n Hn) as H1.
      pose proof (devModesJoin_testbit major' minor' n Hn) as H2.
      rewrite Heq in H1. rewrite H1 in H2.
      destruct (Z.ltb_spec n 8); [assumption | lia].
    + destruct (Z.lt_ge_cases n 20) as [Hlt | Hge'].
      * pose proof (devModesJoin_testbit major minor (n + 12) ltac:(lia)) as H1.
        pose proof (devModesJoin_testbit major' minor' (n + 12) ltac:(lia)) as H2.
        rewrite Heq in H1. rewrite H1 in H2.
        destruct (Z.ltb_spec (n + 12) 8); [lia |].
        destruct (Z.ltb_spec (n + 12) 20); [lia |].
        destruct (Z.ltb_spec (n + 12) 32); [| lia].
        now replace (n + 12 - 12) with n in H2 by lia.
      * now rewrite (testbit_high minor 20), (testbit_high minor' 20).
Qed.

Lemma devModesJoin_injective_witness :
  devModesJoin 259 70000 = devModesJoin 259 70000 /\ (259 = 259 /\ 70000 = 70000).
Proof.
  split; [reflexivity |].
  apply (devModesJoin_injective 259 70000 259 70000); lia || reflexivity.
Defined.

(** X5: whatever combined number it is given, [devModesSplit] returns a
    major number below 2^8 and a minor number below 2^20, neither of them
    negative. *)
Theorem devModesSplit_range (rdev : Z) :
  0 <= fst (devModesSplit rdev) < 2 ^ 8 /\
  0 <= snd (devModesSplit rdev) < 2 ^ 20.
Proof.
  rewrite devModesSplit_unwrapped. cbn [fst snd].
  pose proof (land_nonneg_bound (Z.shiftr rdev 8) 0xff ltac:(lia)) as H1.
  pose proof (land_nonneg_bound rdev 0xff ltac:(lia)) as H2.
  pose proof (land_nonneg_bound (Z.shiftr rdev 12) 0xfff00 ltac:(lia)) as H3.
  split; [lia |]. apply lor_bound; lia.
Qed.

(** X6: encoding what [devModesSplit] has decoded gives the combined
    number back with bits 16-19 and every bit from 32 on cleared: the
    numbers that survive are those below 2^32 whose major number is below
    2^8. *)
Theorem devModesJoin_Split (rdev : Z) :
  devModesJoin (fst (devModesSplit rdev)) (snd (devModesSplit rdev)) =
  Z.land rdev 0xfff0ffff.
Proof.
  rewrite devModesSplit_unwrapped. cbn [fst snd].
  apply Z.bits_inj'. intros n Hn.
  rewrite devModesJoin_testbit, (Z.land_spec rdev 0xfff0ffff), testbit_0xfff0ffff by lia.
  destruct (Z.ltb_spec n 8) as [H8 | H8]; [bit_cases |].
  destruct (Z.ltb_spec n 20) as [H20 | H20]; [bit_cases |].
  destruct (Z.ltb_spec n 32) as [H32 | H32]; bit_cases.
Qed.

(** ** Permission bits: further properties *)

Lemma land_pow2_eqb (x k : Z) :
  0 <= k -> (Z.land x (2 ^ k) =? 0) = negb (Z.testbit x k).
Proof.
  intros Hk. destruct (Z.testbit x k) eqn:Hb; simpl.
  - apply Z.eqb_neq. intros H0.
    assert (Z.testbit (Z.land x (2 ^ k)) k = true) as Ht.
    { rewrite Z.land_spec, Hb, Z.pow2_bits_true by lia. reflexivity. }
    rewrite H0, Z.bits_0 in Ht. discriminate.
  - apply Z.eqb_eq. apply Z.bits_inj'. intros n Hn.
    rewrite Z.land_spec, Z.bits_0, Z.pow2_bits_eqb by lia.
    destruct (Z.eqb_spec k n) as [-> | Hne]; [now rewrite Hb | apply andb_false_r].
Qed.

(** Rewrites the bit at an index of a combination of flags into the bits
    of its operands, then splits on the position of the index. *)
Ltac flag_cases :=
  repeat first [ rewrite Z.lor_spec | rewrite Z.land_spec
               | rewrite Z.pow2_bits_eqb by lia | rewrite Z.testbit_ones by lia ];
  repeat match goal with
         | |- context [?a <? ?b] => destruct (Z.ltb_spec a b)
         | |- context [?a <=? ?b] => destruct (Z.leb_spec a b)
         | |- context [?a =? ?b] => destruct (Z.eqb_spec a b)
         end;
  subst; simpl;
  rewrite ?andb_true_r, ?andb_false_r, ?orb_false_r, ?orb_false_l, ?orb_true_r;
  try reflexivity; try lia; try congruence.

(** Where [permsToOs] puts the bits of a permission value. *)
Lemma permsToOs_testbit (perms n : Z) :
  0 <= n ->
  Z.testbit (permsToOs perms) n =
  if n <? 9 then Z.testbit perms n
  else if n =? 20 then Z.testbit perms 9
  else if n =? 22 then Z.testbit perms 10
  else if n =? 23 then Z.testbit perms 11
  else false.
Proof.
  intros Hn. unfold permsToOs, ModeSetuid, ModeSetgid, ModeSticky.
  change 2048 with (2 ^ 11). change 1024 with (2 ^ 10). change 512 with (2 ^ 9).
  change 511 with (Z.ones 9).
  rewrite !land_pow2_eqb by lia.
  destruct (Z.testbit perms 11) eqn:H11, (Z.testbit perms 10) eqn:H10,
    (Z.testbit perms 9) eqn:H9; cbn [negb]; flag_cases.
Qed.

(** Where [osFS.LStat] finds the bits of a permission value in a mode. *)
Lemma mode_perms_testbit (fm n : Z) :
  0 <= n ->
  Z.testbit (mode_perms fm) n =
  if n <? 9 then Z.testbit fm n
  else if n =? 9 then Z.testbit fm 20
  else if n =? 10 then Z.testbit fm 22
  else if n =? 11 then Z.testbit fm 23
  else false.
Proof.
  intros Hn.
  unfold mode_perms, ModePerm, ModeSetuid, ModeSetgid, ModeSticky,
    Perms_Setuid, Perms_Setgid, Perms_Sticky.
  change 2048 with (2 ^ 11). change 1024 with (2 ^ 10). change 512 with (2 ^ 9).
  change 511 with (Z.ones 9).
  rewrite !land_pow2_eqb by lia.
  destruct (Z.testbit fm 23) eqn:H23, (Z.testbit fm 22) eqn:H22,
    (Z.testbit fm 20) eqn:H20; cbn [negb]; flag_cases.
Qed.

(** X7: the permission value [osFS.LStat] reads off a mode never has a
    bit outside the twelve: it lies in [0, 2^12) for every mode. *)
Theorem mode_perms_range (fm : Z) : 0 <= mode_perms fm < 2 ^ 12.
Proof.
  unfold mode_perms, ModePerm, Perms_Setuid, Perms_Setgid, Perms_Sticky.
  pose proof (land_nonneg_bound fm 511 ltac:(lia)) as H0.
  destruct (Z.land fm ModeSetuid =? 0), (Z.land fm ModeSetgid =? 0),
    (Z.land fm ModeSticky =? 0);
    repeat (apply lor_bound; [lia | | lia]); lia.
Qed.

(** X8: turning into a mode the permission value read off a mode gives
    that mode back, cut down to its nine permission bits and its setuid,
    setgid and sticky bits. *)
Theorem permsToOs_mode_perms (fm : Z) :
  permsToOs (mode_perms fm) =
  Z.land fm (Z.lor ModePerm (Z.lor ModeSetuid (Z.lor ModeSetgid ModeSticky))).
Proof.
  apply Z.bits_inj'. intros n Hn.
  rewrite permsToOs_testbit by lia.
  rewrite !mode_perms_testbit by lia. cbn [Z.ltb Z.eqb Z.compare Pos.compare
    Pos.compare_cont Pos.eqb].
  unfold ModePerm, ModeSetuid, ModeSetgid, ModeSticky.
  change 511 with (Z.ones 9).
  flag_cases.
Qed.

(** X9: [permsToOs] looks at the low twelve bits of a permission value
    only, and never sets a bit that tells the type of a file. *)
Theorem permsToOs_twelve_bits_only (perms : Z) :
  permsToOs perms = permsToOs (perms mod 2 ^ 12) /\
  Z.land (permsToOs perms) (Z.lor ModeType ModeCharDevice) = 0.
Proof.
  split; apply Z.bits_inj'; intros n Hn.
  - rewrite !permsToOs_testbit by lia.
    rewrite !Z.testbit_mod_pow2 by lia.
    cbn [Z.ltb Z.compare Pos.compare Pos.compare_cont andb].
    destruct (Z.ltb_spec n 9) as [H9 | H9]; [| reflexivity].
    destruct (Z.ltb_spec n 12); [reflexivity | lia].
  - rewrite Z.land_spec, Z.bits_0, permsToOs_testbit by lia.
    unfold ModeType, ModeCharDevice, ModeDir, ModeSymlink, ModeNamedPipe,
      ModeSocket, ModeDevice.
    flag_cases.
Qed.

(** X10: the type and the permission value [osFS.LStat] reads off a mode
    do not depend on each other: with the permission bits of a mode
    replaced by those [permsToOs] makes of a permission value below 2^12,
    the type is the same and the permission value is the new one. *)
Theorem mode_type_perms_independent (fm perms : Z) :
  0 <= perms < 2 ^ 12 ->
  mode_type (Z.lor (Z.land fm (Z.lor ModeType ModeCharDevice)) (permsToOs perms))
  = mode_type fm /\
  mode_perms (Z.lor (Z.land fm (Z.lor ModeType ModeCharDevice)) (permsToOs perms))
  = perms.
Proof.
  intros Hp. split.
  - unfold mode_type.
    replace (Z.land (Z.lor (Z.land fm (Z.lor ModeType ModeCharDevice)) (permsToOs perms))
                    (Z.lor ModeType ModeCharDevice))
      with (Z.land fm (Z.lor ModeType ModeCharDevice)); [reflexivity |].
    apply Z.bits_inj'. intros n Hn.
    rewrite (Z.land_spec (Z.lor _ _)), (Z.lor_spec (Z.land fm _)).
    rewrite permsToOs_testbit by lia.
    unfold ModeType, ModeCharDevice, ModeDir, ModeSymlink, ModeNamedPipe,
      ModeSocket, ModeDevice.
    flag_cases.
  - apply Z.bits_inj'. intros n Hn.
    rewrite mode_perms_testbit by lia.
    rewrite !Z.lor_spec, !permsToOs_testbit by lia.
    cbn [Z.ltb Z.eqb Z.compare Pos.compare Pos.compare_cont Pos.eqb].
    unfold ModeType, ModeCharDevice, ModeDir, ModeSymlink, ModeNamedPipe,
      ModeSocket, ModeDevice.
    destruct (Z.ltb_spec n 9) as [H9 | H9]; [flag_cases |].
    destruct (Z.eqb_spec n 9) as [-> | N9]; [flag_cases |].
    destruct (Z.eqb_spec n 10) as [-> | N10]; [flag_cases |].
    destruct (Z.eqb_spec n 11) as [-> | N11]; [flag_cases |].
    symmetry. apply (testbit_high perms 12); lia.
Qed.

Lemma mode_type_perms_independent_witness :
  0 <= 3565 < 2 ^ 12 /\
  mode_type (Z.lor (Z.land (Z.lor ModeDir 493) (Z.lor ModeType ModeCharDevice))
                   (permsToOs 3565))
  = mode_type (Z.lor ModeDir 493) /\
  mode_perms (Z.lor (Z.land (Z.lor ModeDir 493) (Z.lor ModeType ModeCharDevice))
                    (permsToOs 3565))
  = 3565.
Proof.
  split; [lia |]. apply (mode_type_perms_independent (Z.lor ModeDir 493) 3565). lia.
Defined.

(** ** The driver: further properties *)

(** A mode whose type bits [osFS.LStat] knows has the bit of a symbolic
    link exactly when it is told to be one. *)
Lemma mode_type_symlink (fm : Z) (ty : FileType) :
  mode_type fm = Some ty ->
  (Z.land fm ModeSymlink =? 0) = negb (bool_decide (ty = Type_Symlink)).
Proof.
  assert (Hs : Z.land fm ModeSymlink =
               Z.land (Z.land fm (Z.lor ModeType ModeCharDevice)) ModeSymlink).
  { rewrite <- Z.land_assoc. reflexivity. }
  rewrite Hs. unfold mode_type. cbv zeta. intros H.
  repeat match type of H with
         | (if ?a =? ?b then _ else _) = Some _ =>
           destruct (Z.eqb_spec a b) as [e | _];
             [rewrite e; injection H as <-; reflexivity |]
         end.
  discriminate.
Qed.

Section LStatFacts.

Variable afs : osFS.
Variable path : RelPath.t.
Variable h : Host.

(** X11: for an entry the host has, whose type bits are among the seven
    combinations, [osFS.LStat] returns metadata and no error: the name is
    the path asked for, type, permissions, size and modification time are
    those of the entry itself, and the link name is the target of a
    symbolic link and empty for everything else. *)
Theorem LStat_of_entry (i : Inode) (ty : FileType) :
  lookup_faults h !! os_name afs path = None ->
  inodes h !! os_name afs path = Some i ->
  mode_type (fi_Mode (ino_info i)) = Some ty ->
  exists meta : Metadata,
    osFS_LStat afs path h = Returns (Some meta, None) /\
    Name meta = path /\
    Type_ meta = ty /\
    Perms meta = mode_perms (fi_Mode (ino_info i)) /\
    Size meta = fi_Size (ino_info i) /\
    Mtime meta = fi_ModTime (ino_info i) /\
    Linkname meta = (if bool_decide (ty = Type_Symlink) then ino_target i else "").
Proof.
  intros Hfault Hnode Hty.
  unfold osFS_LStat, osFS_Readlink, os_Lstat, os_Readlink, is_symlink.
  rewrite Hfault, Hnode, Hty, (mode_type_symlink _ _ Hty), negb_involutive.
  destruct (fi_Sys (ino_info i)) as [sys |];
    destruct (bool_decide (ty = Type_Symlink)); cbn;
    eexists; repeat split; reflexivity.
Qed.

(** X12: [osFS.LStat] returns no metadata and an error when the host has
    no entry at the path or refuses the lookup, and it panics when the
    entry is there with type bits it does not know. *)
Theorem LStat_without_metadata :
  (lookup_faults h !! os_name afs path = None ->
   inodes h !! os_name afs path = None ->
   osFS_LStat afs path h =
   Returns (None, IOError (Some {| Op := "lstat"; Path := os_name afs path;
                                   Err := ENOENT |}))) /\
  (forall e, lookup_faults h !! os_name afs path = Some e ->
             osFS_LStat afs path h =
             Returns (None, IOError (Some {| Op := "lstat"; Path := os_name afs path;
                                             Err := e |}))) /\
  (forall i, lookup_faults h !! os_name afs path = None ->
             inodes h !! os_name afs path = Some i ->
             mode_type (fi_Mode (ino_info i)) = None ->
             osFS_LStat afs path h = Panics "unknown file mode").
Proof.
  unfold osFS_LStat, os_Lstat. split; [| split].
  - intros -> ->. reflexivity.
  - intros e ->. reflexivity.
  - intros i -> -> ->. reflexivity.
Qed.

(** X13: in whatever metadata [osFS.LStat] returns, the device numbers
    are zero for everything that is not a device and the link name is
    empty for everything that is not a symbolic link. *)
Theorem LStat_metadata_invariants (meta : Metadata) (err : option ErrFS) :
  osFS_LStat afs path h = Returns (Some meta, err) ->
  (Type_ meta <> Type_Device -> Type_ meta <> Type_CharDevice ->
   Devmajor meta = 0 /\ Devminor meta = 0) /\
  (Type_ meta <> Type_Symlink -> Linkname meta = "").
Proof.
  unfold osFS_LStat, osFS_Readlink, os_Lstat, os_Readlink, is_symlink.
  destruct (lookup_faults h !! os_name afs path); [discriminate |].
  destruct (inodes h !! os_name afs path) as [i |]; [| discriminate].
  destruct (mode_type (fi_Mode (ino_info i))) as [ty |] eqn:Hty; [| discriminate].
  rewrite (mode_type_symlink _ _ Hty), negb_involutive.
  destruct (fi_Sys (ino_info i)) as [sys |];
    destruct (bool_decide (ty = Type_Symlink)) eqn:Hs; cbn;
    intros [= <- <-]; cbn; split; intros;
    try (apply bool_decide_eq_true in Hs); try congruence; try (split; reflexivity).
  - destruct ty; cbn; try (split; reflexivity); congruence.
  - destruct ty; cbn; try (split; reflexivity); congruence.
Qed.

End LStatFacts.

Lemma LStat_of_entry_witness :
  exists meta : Metadata,
    osFS_LStat data_fs (MustRelPath "link") driver_host = Returns (Some meta, None) /\
    Name meta = MustRelPath "link" /\
    Type_ meta = Type_Symlink /\
    Perms meta = mode_perms (Z.lor ModeSymlink 511) /\
    Size meta = 0 /\
    Mtime meta = 0 /\
    Linkname meta = "file".
Proof.
  apply (LStat_of_entry data_fs (MustRelPath "link") driver_host
           (new_inode (Z.lor ModeSymlink 511) "file") Type_Symlink); reflexivity.
Defined.

Lemma LStat_without_metadata_witness :
  osFS_LStat data_fs (MustRelPath "gone") driver_host =
  Returns (None, IOError (Some {| Op := "lstat"; Path := "/data/gone"; Err := ENOENT |})) /\
  osFS_LStat data_fs (MustRelPath "locked/x") driver_host =
  Returns (None, IOError (Some {| Op := "lstat"; Path := "/data/locked/x"; Err := EACCES |})).
Proof.
  split.
  - apply (proj1 (LStat_without_metadata data_fs (MustRelPath "gone") driver_host));
      reflexivity.
  - apply (proj1 (proj2 (LStat_without_metadata data_fs (MustRelPath "locked/x")
                                                driver_host)) EACCES).
    reflexivity.
Defined.

Lemma LStat_metadata_invariants_witness :
  osFS_LStat data_fs (MustRelPath "file") driver_host = Returns (Some file_stat, None) /\
  (Type_ file_stat <> Type_Device -> Type_ file_stat <> Type_CharDevice ->
   Devmajor file_stat = 0 /\ Devminor file_stat = 0) /\
  (Type_ file_stat <> Type_Symlink -> Linkname file_stat = "").
Proof.
  split; [vm_compute; reflexivity |].
  apply (LStat_metadata_invariants data_fs (MustRelPath "file") driver_host
           file_stat None).
  vm_compute. reflexivity.
Defined.

(** ** The bind placer: further properties *)

Section PlacerMore.

Variable rootFs : FS.
Variable mkDest : AbsolutePath.t -> FileType -> Host -> option error * Host.
Variable srcPath dstPath : AbsolutePath.t.

(** Splits a run of [BindPlacer] into the cases of its branches. *)
Ltac placer_cases :=
  unfold BindPlacer, bind, look, act, mount_bind, emit, ret, panic;
  repeat match goal with
         | |- context [match ?x with _ => _ end] => destruct x eqn:?
         | |- context [if ?x then _ else _] => destruct x eqn:?
         end;
  cbn [fst snd host trace] in *.

(** X14: when [BindPlacer] returns, it returns either a cleanup function
    and no error, or an error and no cleanup function. *)
Theorem BindPlacer_cleanup_or_error
  (writable : bool) (w w' : World MountCall)
  (cleanup : option CleanupFunc) (err : option error) :
  BindPlacer rootFs mkDest srcPath dstPath writable w = (Returns (cleanup, err), w') ->
  (cleanup = Some (bind_cleanup dstPath) /\ err = None) \/
  (cleanup = None /\ exists e, err = Some e).
Proof.
  placer_cases; intros [= <- <- <-]; eauto.
Qed.

(** X15: [BindPlacer] never unmounts anything, and the mount calls it
    makes are at most the bind followed by its read-only remount; when
    [writable] is set there is no remount. *)
Theorem BindPlacer_mount_calls (writable : bool) (w : World MountCall) :
  trace (snd (BindPlacer rootFs mkDest srcPath dstPath writable w)) = trace w \/
  trace (snd (BindPlacer rootFs mkDest srcPath dstPath writable w))
  = (trace w ++ [bind_call srcPath dstPath])%list \/
  (writable = false /\
   trace (snd (BindPlacer rootFs mkDest srcPath dstPath writable w))
   = (trace w ++ [bind_call srcPath dstPath; remount_call srcPath dstPath])%list).
Proof.
  unfold bind_call, remount_call.
  destruct writable; placer_cases; rewrite <- ?app_assoc; auto.
Qed.

End PlacerMore.

(** What a successful bind, and a successful remount, make of the host. *)
Lemma syscall_Mount_bind_ok (source target : string) (h1 h2 : Host) :
  syscall_Mount source target "bind" (Z.lor MS_BIND MS_REC) "" h1 = (None, h2) ->
  h2 = set_mounts (insert target {| mnt_source := source; mnt_readonly := false |}) h1.
Proof.
  unfold syscall_Mount. destruct (mount_faults h1 !! _); [discriminate |].
  change (has_flag (Z.lor MS_BIND MS_REC) MS_REMOUNT) with false.
  now intros [= <-].
Qed.

Lemma syscall_Mount_remount_ok (source target : string) (h2 h3 : Host) :
  syscall_Mount source target "bind"
                (Z.lor (Z.lor MS_BIND MS_REC) (Z.lor MS_RDONLY MS_REMOUNT)) "" h2
  = (None, h3) ->
  exists m, mounts h2 !! target = Some m /\
            h3 = set_mounts (insert target {| mnt_source := mnt_source m;
                                               mnt_readonly := true |}) h2.
Proof.
  unfold syscall_Mount. destruct (mount_faults h2 !! _); [discriminate |].
  change (has_flag (Z.lor (Z.lor MS_BIND MS_REC) (Z.lor MS_RDONLY MS_REMOUNT))
                   MS_REMOUNT) with true.
  change (has_flag (Z.lor (Z.lor MS_BIND MS_REC) (Z.lor MS_RDONLY MS_REMOUNT))
                   MS_RDONLY) with true.
  cbv iota. destruct (mounts h2 !! target) as [m |]; [| discriminate].
  intros [= <-]. eauto.
Qed.


Section PlacerPaths.

Variable rootFs : FS.
Variable mkDest : AbsolutePath.t -> FileType -> Host -> option error * Host.
Variable srcPath dstPath : AbsolutePath.t.

(** X16: when the stat of the source fails, [BindPlacer] returns a
    local-cache-problem error that carries the driver's error, and no
    cleanup function; the world is as it was. *)
Theorem BindPlacer_stat_failure
  (writable : bool) (w : World MountCall) (srcStat : option Metadata) (e : ErrFS) :
  LStat rootFs (CoerceRelative srcPath) (host w) = Returns (srcStat, Some e) ->
  BindPlacer rootFs mkDest srcPath dstPath writable w =
  (Returns (None, Some (Errorf ErrLocalCacheProblem "error placing with bind mount: %s"
                               [ArgErrFS e])),
   w).
Proof.
  intros Hstat. unfold BindPlacer, bind, look. rewrite Hstat. reflexivity.
Qed.

(** X17: when the mount point cannot be made, [BindPlacer] returns the
    error of [mkDest] as it is, and no cleanup function; no mount call is
    made. *)
Theorem BindPlacer_mkDest_failure
  (writable : bool) (w : World MountCall) (srcStat : Metadata) (e : error) (h1 : Host) :
  LStat rootFs (CoerceRelative srcPath) (host w) = Returns (Some srcStat, None) ->
  Type_ srcStat = Type_File \/ Type_ srcStat = Type_Dir ->
  mkDest dstPath (Type_ srcStat) (host w) = (Some e, h1) ->
  BindPlacer rootFs mkDest srcPath dstPath writable w =
  (Returns (None, Some e), {| host := h1; trace := trace w |}).
Proof.
  intros Hstat Hty Hdest. unfold BindPlacer, bind, look, act, ret. rewrite Hstat.
  destruct Hty as [Hty | Hty]; rewrite Hty in *; cbv beta iota;
    rewrite Hdest; reflexivity.
Qed.

(** X18: when the host refuses the bind, [BindPlacer] returns an
    assembly-invalid error that carries the host's error, and no cleanup
    function; the bind is the only mount call made, also when the
    placement was to be read-only. *)
Theorem BindPlacer_bind_failure
  (writable : bool) (w : World MountCall) (srcStat : Metadata) (e : Errno)
  (h1 h2 : Host) :
  LStat rootFs (CoerceRelative srcPath) (host w) = Returns (Some srcStat, None) ->
  Type_ srcStat = Type_File \/ Type_ srcStat = Type_Dir ->
  mkDest dstPath (Type_ srcStat) (host w) = (None, h1) ->
  syscall_Mount (AbsolutePath.String srcPath) (AbsolutePath.String dstPath) "bind"
                (Z.lor MS_BIND MS_REC) "" h1 = (Some e, h2) ->
  BindPlacer rootFs mkDest srcPath dstPath writable w =
  (Returns (None, Some (Errorf ErrAssemblyInvalid "error placing with bind mount: %s"
                               [ArgErrno e])),
   {| host := h2; trace := trace w ++ [bind_call srcPath dstPath] |}).
Proof.
  intros Hstat Hty Hdest Hbind.
  unfold BindPlacer, bind, look, act, mount_bind, emit, ret. rewrite Hstat.
  destruct Hty as [Hty | Hty]; rewrite Hty in *; cbv beta iota;
    rewrite Hdest; cbn [fst snd host trace]; rewrite Hbind; reflexivity.
Qed.

(** The run of [BindPlacer] when nothing fails. *)
Lemma BindPlacer_success_run
  (writable : bool) (w : World MountCall) (srcStat : Metadata) (h1 h2 h3 : Host) :
  LStat rootFs (CoerceRelative srcPath) (host w) = Returns (Some srcStat, None) ->
  Type_ srcStat = Type_File \/ Type_ srcStat = Type_Dir ->
  mkDest dstPath (Type_ srcStat) (host w) = (None, h1) ->
  syscall_Mount (AbsolutePath.String srcPath) (AbsolutePath.String dstPath) "bind"
                (Z.lor MS_BIND MS_REC) "" h1 = (None, h2) ->
  (if writable then h3 = h2
   else syscall_Mount (AbsolutePath.String srcPath) (AbsolutePath.String dstPath) "bind"
                      (Z.lor (Z.lor MS_BIND MS_REC) (Z.lor MS_RDONLY MS_REMOUNT)) "" h2
        = (None, h3)) ->
  BindPlacer rootFs mkDest srcPath dstPath writable w =
  (Returns (Some (bind_cleanup dstPath), None),
   {| host := h3;
      trace := trace w ++
               if writable then [bind_call srcPath dstPath]
               else [bind_call srcPath dstPath; remount_call srcPath dstPath] |}).
Proof.
  intros Hstat Hty Hdest Hbind Hrest.
  rewrite (BindPlacer_after_bind _ _ _ _ _ _ _ _ _ Hstat Hty Hdest Hbind).
  destruct writable; cbn [negb].
  - subst h3. reflexivity.
  - unfold bind, mount_bind, emit, ret. cbn [fst snd host trace].
    rewrite Hrest. cbn [fst snd]. now rewrite <- app_assoc.
Qed.

(** The host after the mount calls of a successful run. *)
Lemma placed_host (writable : bool) (h1 h2 h3 : Host) :
  syscall_Mount (AbsolutePath.String srcPath) (AbsolutePath.String dstPath) "bind"
                (Z.lor MS_BIND MS_REC) "" h1 = (None, h2) ->
  (if writable then h3 = h2
   else syscall_Mount (AbsolutePath.String srcPath) (AbsolutePath.String dstPath) "bind"
                      (Z.lor (Z.lor MS_BIND MS_REC) (Z.lor MS_RDONLY MS_REMOUNT)) "" h2
        = (None, h3)) ->
  h3 = set_mounts (insert (AbsolutePath.String dstPath)
                          {| mnt_source := AbsolutePath.String srcPath;
                             mnt_readonly := negb writable |}) h1.
Proof.
  intros Hbind Hrest. apply syscall_Mount_bind_ok in Hbind as ->.
  destruct writable; cbn [negb]; [assumption |].
  apply syscall_Mount_remount_ok in Hrest as (m & Hm & ->).
  cbn in Hm. rewrite lookup_insert_eq in Hm. injection Hm as <-.
  destruct h1 as [ino lf mnt mf]. unfold set_mounts. cbn.
  now rewrite insert_insert_eq.
Qed.

(** X19: when the mount point is made and the host lets the mount calls
    through, [BindPlacer] returns the cleanup function and no error, after
    the bind alone when [writable] is set and after the bind and its
    remount otherwise; the destination is then a mount of the source,
    read-only exactly when [writable] is not set. *)
Theorem BindPlacer_success
  (writable : bool) (w : World MountCall) (srcStat : Metadata) (h1 h2 h3 : Host) :
  LStat rootFs (CoerceRelative srcPath) (host w) = Returns (Some srcStat, None) ->
  Type_ srcStat = Type_File \/ Type_ srcStat = Type_Dir ->
  mkDest dstPath (Type_ srcStat) (host w) = (None, h1) ->
  syscall_Mount (AbsolutePath.String srcPath) (AbsolutePath.String dstPath) "bind"
                (Z.lor MS_BIND MS_REC) "" h1 = (None, h2) ->
  (if writable then h3 = h2
   else syscall_Mount (AbsolutePath.String srcPath) (AbsolutePath.String dstPath) "bind"
                      (Z.lor (Z.lor MS_BIND MS_REC) (Z.lor MS_RDONLY MS_REMOUNT)) "" h2
        = (None, h3)) ->
  BindPlacer rootFs mkDest srcPath dstPath writable w =
  (Returns (Some (bind_cleanup dstPath), None),
   {| host := h3;
      trace := trace w ++
               if writable then [bind_call srcPath dstPath]
               else [bind_call srcPath dstPath; remount_call srcPath dstPath] |}) /\
  mounts h3 !! AbsolutePath.String dstPath =
  Some {| mnt_source := AbsolutePath.String srcPath; mnt_readonly := negb writable |}.
Proof.
  intros Hstat Hty Hdest Hbind Hrest. split.
  - now apply (BindPlacer_success_run writable w srcStat h1 h2 h3).
  - rewrite (placed_host writable h1 h2 h3 Hbind Hrest). apply lookup_insert_eq.
Qed.



End PlacerPaths.

Lemma BindPlacer_cleanup_or_error_witness :
  (Some (bind_cleanup (MustAbsolutePath "/mnt/x")) =
   Some (bind_cleanup (MustAbsolutePath "/mnt/x")) /\ @None error = None) \/
  (Some (bind_cleanup (MustAbsolutePath "/mnt/x")) = None /\
   exists e : error, None = Some e).
Proof.
  apply (BindPlacer_cleanup_or_error root_fs mkDest_model
           (MustAbsolutePath "/ware") (MustAbsolutePath "/mnt/x") true placer_world
           {| host := ware_bound_host;
              trace := [CallMount "/ware" "/mnt/x" "bind" 20480 ""] |}).
  vm_compute. reflexivity.
Defined.

Lemma BindPlacer_stat_failure_witness :
  BindPlacer root_fs mkDest_model (MustAbsolutePath "/absent") (MustAbsolutePath "/mnt/x")
             false placer_world =
  (Returns (None, Some (Errorf ErrLocalCacheProblem "error placing with bind mount: %s"
                               [ArgErrFS (ErrIOUnknown {| Op := "lstat"; Path := "/absent";
                                                          Err := ENOENT |})])),
   placer_world).
Proof.
  apply (BindPlacer_stat_failure root_fs mkDest_model (MustAbsolutePath "/absent")
           (MustAbsolutePath "/mnt/x") false placer_world None).
  vm_compute. reflexivity.
Defined.

Lemma BindPlacer_mkDest_failure_witness :
  BindPlacer root_fs mkDest_model (MustAbsolutePath "/ware") (MustAbsolutePath "/ware-link")
             false placer_world =
  (Returns (None, Some (Errorf ErrAssemblyInvalid
                               "placer: destination is of another type (%s)"
                               [ArgPath (MustAbsolutePath "/ware-link")])),
   {| host := placer_host; trace := [] |}).
Proof.
  apply (BindPlacer_mkDest_failure root_fs mkDest_model (MustAbsolutePath "/ware")
           (MustAbsolutePath "/ware-link") false placer_world ware_stat).
  - vm_compute. reflexivity.
  - right. reflexivity.
  - vm_compute. reflexivity.
Defined.

Lemma BindPlacer_bind_failure_witness :
  BindPlacer root_fs mkDest_model (MustAbsolutePath "/ware") (MustAbsolutePath "/mnt/denied")
             false {| host := refusing_host; trace := [] |} =
  (Returns (None, Some (Errorf ErrAssemblyInvalid "error placing with bind mount: %s"
                               [ArgErrno EPERM])),
   {| host := snd (mkDest_model (MustAbsolutePath "/mnt/denied") Type_Dir refusing_host);
      trace := [] ++ [bind_call (MustAbsolutePath "/ware")
                                (MustAbsolutePath "/mnt/denied")] |}).
Proof.
  apply (BindPlacer_bind_failure root_fs mkDest_model (MustAbsolutePath "/ware")
           (MustAbsolutePath "/mnt/denied") false
           {| host := refusing_host; trace := [] |} ware_stat EPERM
           (snd (mkDest_model (MustAbsolutePath "/mnt/denied") Type_Dir refusing_host))).
  - vm_compute. reflexivity.
  - right. reflexivity.
  - vm_compute. reflexivity.
  - vm_compute. reflexivity.
Defined.

Lemma BindPlacer_success_witness :
  BindPlacer root_fs mkDest_model (MustAbsolutePath "/ware") (MustAbsolutePath "/mnt/x")
             false placer_world =
  (Returns (Some (bind_cleanup (MustAbsolutePath "/mnt/x")), None),
   {| host := ware_readonly_host;
      trace := [] ++ [bind_call (MustAbsolutePath "/ware") (MustAbsolutePath "/mnt/x");
                      remount_call (MustAbsolutePath "/ware") (MustAbsolutePath "/mnt/x")] |}) /\
  mounts ware_readonly_host !! "/mnt/x" =
  Some {| mnt_source := "/ware"; mnt_readonly := true |}.
Proof.
  apply (BindPlacer_success root_fs mkDest_model (MustAbsolutePath "/ware")
           (MustAbsolutePath "/mnt/x") false placer_world ware_stat
           made_host ware_bound_host ware_readonly_host).
  - vm_compute. reflexivity.
  - right. reflexivity.
  - vm_compute. reflexivity.
  - vm_compute. reflexivity.
  - vm_compute. reflexivity.
Defined.



(** ** The cache: further properties *)

Section CacheMore.

Context {Ctx Filters Warehouse Monitor : Type}.
Variable MkdirAll : FS -> RelPath.t -> Z -> Host -> option ErrFS * Host.

(** X22: when the cache directories cannot be made, [cache.Unpack]
    returns the zero WareID and a local-cache-problem error that carries
    the error of [MkdirAll]; the tool is not called. *)
Theorem Unpack_init_failure
  (c : cache) (ctx : Ctx) (wareID : WareID) (path : string) (filt : Filters)
  (placementMode : PlacementMode) (warehouses : list Warehouse) (monitor : Monitor)
  (w : World UnpackCall) (err : ErrFS) (h1 : Host) :
  MkdirAll (afs c) (MustRelPath (ware_Type wareID ++ "/fileset")) 448 (host w)
  = (Some err, h1) ->
  fst (Unpack MkdirAll c ctx wareID path filt placementMode warehouses monitor w)
  = Returns ({| ware_Type := ""; ware_Hash := "" |},
             Some (Errorf ExitLocalCacheProblem "cannot initialize cache dirs: %s"
                          [ArgErrFS err])) /\
  trace (snd (Unpack MkdirAll c ctx wareID path filt placementMode warehouses monitor w))
  = trace w /\
  host (snd (Unpack MkdirAll c ctx wareID path filt placementMode warehouses monitor w))
  = h1.
Proof.
  intros Hinit. rewrite (Unpack_when_init_fails _ _ _ _ _ _ _ _ _ _ _ _ Hinit).
  repeat split.
Qed.

(** X23: the destination path and the placement mode a caller gives
    [cache.Unpack] have no effect: with any other path and any other mode
    the call returns the same and leaves the same world. *)
Theorem Unpack_ignores_destination
  (c : cache) (ctx : Ctx) (wareID : WareID) (path path' : string) (filt : Filters)
  (placementMode placementMode' : PlacementMode) (warehouses : list Warehouse)
  (monitor : Monitor) (w : World UnpackCall) :
  Unpack MkdirAll c ctx wareID path filt placementMode warehouses monitor w =
  Unpack MkdirAll c ctx wareID path' filt placementMode' warehouses monitor w.
Proof. reflexivity. Qed.

(** X24: when the tool fails, [cache.Unpack] returns the WareID and the
    error of the tool as they are, and does nothing after the tool: the
    host is as the tool left it. *)
Theorem Unpack_tool_failure
  (c : cache) (ctx : Ctx) (wareID : WareID) (path : string) (filt : Filters)
  (placementMode : PlacementMode) (warehouses : list Warehouse) (monitor : Monitor)
  (w : World UnpackCall) (h1 h2 : Host) (resultWareID : WareID) (err : error) :
  MkdirAll (afs c) (MustRelPath (ware_Type wareID ++ "/fileset")) 448 (host w)
  = (None, h1) ->
  unpackTool c ctx wareID (tmpPathStr c) filt Placement_Direct warehouses monitor h1
  = ((resultWareID, Some err), h2) ->
  fst (Unpack MkdirAll c ctx wareID path filt placementMode warehouses monitor w)
  = Returns (resultWareID, Some err) /\
  host (snd (Unpack MkdirAll c ctx wareID path filt placementMode warehouses monitor w))
  = h2.
Proof.
  intros Hinit Htool.
  rewrite (Unpack_when_init_succeeds _ _ _ _ _ _ _ _ _ _ _ Hinit).
  cbn [fst snd host]. now rewrite Htool.
Qed.

End CacheMore.

(** ** The driver: making entries, and reading them back *)

Lemma mode_type_of_bits (fm t : Z) (ty : FileType) :
  Z.land fm (Z.lor ModeType ModeCharDevice) = t ->
  mode_type t = Some ty ->
  Z.land t (Z.lor ModeType ModeCharDevice) = t ->
  mode_type fm = Some ty.
Proof.
  intros Hfm Hty Ht. unfold mode_type in *. cbv zeta in *.
  rewrite Hfm. now rewrite Ht in Hty.
Qed.

Lemma mode_type_FileMode_of_unix (m : Z) :
  mode_type (FileMode_of_unix m) = Some (type_of_unix (Z.land m S_IFMT)).
Proof.
  unfold FileMode_of_unix, type_of_unix. cbv zeta.
  destruct (Z.land m S_ISGID =? 0), (Z.land m S_ISUID =? 0), (Z.land m S_ISVTX =? 0);
    repeat match goal with
           | |- context [if ?c then _ else _] => destruct c
           end;
    match goal with
    | |- mode_type _ = Some ?ty =>
      apply (mode_type_of_bits _ (type_bits ty)); [| reflexivity | reflexivity]
    end;
    rewrite ?Z.land_lor_distr_l, <- (Z.land_assoc m 511);
    change (Z.land 511 (Z.lor ModeType ModeCharDevice)) with 0;
    rewrite Z.land_0_r; reflexivity.
Qed.

(** The metadata [osFS.LStat] returns for an entry the host has. *)
Lemma LStat_entry_run (afs : osFS) (path : RelPath.t) (h : Host) (i : Inode) (ty : FileType) :
  lookup_faults h !! os_name afs path = None ->
  inodes h !! os_name afs path = Some i ->
  mode_type (fi_Mode (ino_info i)) = Some ty ->
  osFS_LStat afs path h =
  Returns
    (Some {| Name := path; Type_ := ty;
             Perms := mode_perms (fi_Mode (ino_info i));
             Uid := match fi_Sys (ino_info i) with Some sys => st_Uid sys | None => 0 end;
             Gid := match fi_Sys (ino_info i) with Some sys => st_Gid sys | None => 0 end;
             Size := fi_Size (ino_info i);
             Linkname := if bool_decide (ty = Type_Symlink) then ino_target i else "";
             Devmajor :=
               match fi_Sys (ino_info i) with
               | Some sys =>
                 if bool_decide (ty = Type_Device) || bool_decide (ty = Type_CharDevice)
                 then fst (devModesSplit (st_Rdev sys)) else 0
               | None => 0
               end;
             Devminor :=
               match fi_Sys (ino_info i) with
               | Some sys =>
                 if bool_decide (ty = Type_Device) || bool_decide (ty = Type_CharDevice)
                 then snd (devModesSplit (st_Rdev sys)) else 0
               | None => 0
               end;
             Mtime := fi_ModTime (ino_info i) |},
     None).
Proof.
  intros Hfault Hnode Hty.
  unfold osFS_LStat, osFS_Readlink, os_Lstat, os_Readlink, is_symlink.
  rewrite Hfault, Hnode, Hty, (mode_type_symlink _ _ Hty), negb_involutive.
  destruct (fi_Sys (ino_info i)) as [sys |];
    destruct (bool_decide (ty = Type_Symlink)); cbn;
    try destruct (bool_decide (ty = Type_Device) || bool_decide (ty = Type_CharDevice));
    reflexivity.
Qed.

(** A permission part does not reach the type bits of a kernel mode, and
    a type part does not reach its permission bits. *)
Lemma land_S_IFMT_perm (t p : Z) :
  Z.land t S_IFMT = t -> Z.land (Z.lor t (Z.land p 4095)) S_IFMT = t.
Proof.
  intros Ht. rewrite Z.land_lor_distr_l, Ht, <- Z.land_assoc.
  change (Z.land 4095 S_IFMT) with 0. now rewrite Z.land_0_r, Z.lor_0_r.
Qed.

Lemma to_uint32_perms (perms : Z) : to_uint32 (Z.land perms 4095) = Z.land perms 4095.
Proof.
  apply to_uint32_small.
  pose proof (land_nonneg_bound perms 4095 ltac:(lia)). lia.
Qed.

Section CreationFacts.

Variable proc : Process.
Variable afs : osFS.
Variable path : RelPath.t.

(** What a successful [host_create] makes of the host. *)
Lemma host_create_ok (name : string) (i : Inode) (h h' : Host) :
  host_create name i h = (None, h') ->
  lookup_faults h' !! name = None /\ inodes h' !! name = Some i /\
  h' = set_inodes (insert name i) h.
Proof.
  unfold host_create.
  destruct (lookup_faults h !! name) eqn:Hf; [discriminate |].
  destruct (inodes h !! name); [discriminate |].
  intros [= <-]. cbn. split; [assumption |]. split; [apply lookup_insert_eq | reflexivity].
Qed.

(** The device node [syscall.Mknod] is asked for by the two [Mkdev]
    methods. *)
Lemma Mknod_device (t perms dev : Z) (h : Host) :
  t = S_IFBLK \/ t = S_IFCHR ->
  syscall_Mknod proc (os_name afs path) (Z.lor (to_uint32 (Z.land perms 4095)) t) dev h =
  host_create (os_name afs path)
              (made_inode proc
                 (Z.lor t (Z.land (Z.land perms (Z.lnot (umask proc))) 4095)) dev "") h.
Proof.
  intros Ht. unfold syscall_Mknod. cbv zeta. rewrite to_uint32_perms.
  assert (Htype : Z.land (Z.lor (Z.land perms 4095) t) S_IFMT = t).
  { rewrite Z.lor_comm. apply land_S_IFMT_perm. now destruct Ht as [-> | ->]. }
  assert (Hperm : Z.land (Z.land (Z.lor (Z.land perms 4095) t) 4095) (Z.lnot (umask proc))
                  = Z.land (Z.land perms (Z.lnot (umask proc))) 4095).
  { rewrite Z.land_lor_distr_l, <- (Z.land_assoc perms).
    change (Z.land 4095 4095) with 4095.
    replace (Z.land t 4095) with 0 by (now destruct Ht as [-> | ->]).
    rewrite Z.lor_0_r, <- !Z.land_assoc. f_equal. apply Z.land_comm. }
  rewrite Htype, Hperm.
  destruct Ht as [-> | ->]; reflexivity.
Qed.

(** X25: a symbolic link made by [Mklink] reads back as it was written:
    [Readlink] returns the target, and [LStat] tells a symbolic link with
    that target as its link name. *)
Theorem Mklink_then_Readlink (target : string) (h h' : Host) :
  osFS_Mklink proc afs path target h = (None, h') ->
  osFS_Readlink afs path h' = (target, true, None) /\
  exists meta : Metadata,
    osFS_LStat afs path h' = Returns (Some meta, None) /\
    Type_ meta = Type_Symlink /\ Linkname meta = target.
Proof.
  unfold osFS_Mklink, os_Symlink.
  destruct (host_create _ _ h) as [[e |] h1] eqn:Hmk; [discriminate |].
  intros [= <-]. apply host_create_ok in Hmk as (Hf & Hi & _). split.
  - unfold osFS_Readlink, os_Readlink. rewrite Hf, Hi. reflexivity.
  - eexists. split; [| split].
    + apply (LStat_entry_run afs path h1 _ Type_Symlink Hf Hi). reflexivity.
    + reflexivity.
    + reflexivity.
Qed.

(** X26: a device node made by [MkdevChar] or [MkdevBlock] reads back
    through [LStat] as a device of that kind whose minor number is the
    one given modulo 2^20 and whose major number is the one given modulo
    2^8. *)
Theorem Mkdev_then_LStat (major minor perms : Z) (h h' : Host) :
  (osFS_MkdevChar proc afs path major minor perms h = (None, h') ->
   exists meta : Metadata,
     osFS_LStat afs path h' = Returns (Some meta, None) /\
     Type_ meta = Type_CharDevice /\
     Devmajor meta = major mod 2 ^ 8 /\ Devminor meta = minor mod 2 ^ 20) /\
  (osFS_MkdevBlock proc afs path major minor perms h = (None, h') ->
   exists meta : Metadata,
     osFS_LStat afs path h' = Returns (Some meta, None) /\
     Type_ meta = Type_Device /\
     Devmajor meta = major mod 2 ^ 8 /\ Devminor meta = minor mod 2 ^ 20).
Proof.
  assert (Hdev : devModesSplit (to_int64 (devModesJoin major minor))
                 = (major mod 2 ^ 8, minor mod 2 ^ 20)).
  { pose proof (devModesJoin_range major minor).
    rewrite to_int64_small by lia. apply devModesSplit_Join. }
  split.
  - unfold osFS_MkdevChar. cbv zeta. rewrite Mknod_device by now right.
    destruct (host_create _ _ h) as [[e |] h1] eqn:Hmk; [discriminate |].
    intros [= <-]. apply host_create_ok in Hmk as (Hf & Hi & _).
    eexists. split; [| split; [| split]].
    + apply (LStat_entry_run afs path h1 _ Type_CharDevice Hf Hi).
      cbn [made_inode ino_info fi_Mode]. rewrite mode_type_FileMode_of_unix.
      rewrite (land_S_IFMT_perm S_IFCHR) by reflexivity.
      reflexivity.
    + reflexivity.
    + unfold made_inode. cbn [Devmajor ino_info fi_Sys st_Rdev].
      rewrite Hdev. reflexivity.
    + unfold made_inode. cbn [Devminor ino_info fi_Sys st_Rdev].
      rewrite Hdev. reflexivity.
  - unfold osFS_MkdevBlock. cbv zeta. rewrite Mknod_device by now left.
    destruct (host_create _ _ h) as [[e |] h1] eqn:Hmk; [discriminate |].
    intros [= <-]. apply host_create_ok in Hmk as (Hf & Hi & _).
    eexists. split; [| split; [| split]].
    + apply (LStat_entry_run afs path h1 _ Type_Device Hf Hi).
      cbn [made_inode ino_info fi_Mode]. rewrite mode_type_FileMode_of_unix.
      rewrite (land_S_IFMT_perm S_IFBLK) by reflexivity.
      reflexivity.
    + reflexivity.
    + unfold made_inode. cbn [Devmajor ino_info fi_Sys st_Rdev].
      rewrite Hdev. reflexivity.
    + unfold made_inode. cbn [Devminor ino_info fi_Sys st_Rdev].
      rewrite Hdev. reflexivity.
Qed.

End CreationFacts.

(** Go's reading of a kernel mode only looks at its low sixteen bits. *)
Lemma FileMode_of_unix_mod (m : Z) :
  FileMode_of_unix m = FileMode_of_unix (m mod 2 ^ 16).
Proof.
  unfold FileMode_of_unix, S_IFMT, S_ISGID, S_ISUID, S_ISVTX.
  rewrite (land_mask_mod m 511 16), (land_mask_mod (m mod 2 ^ 16) 511 16) by lia.
  rewrite (land_mask_mod m 61440 16), (land_mask_mod (m mod 2 ^ 16) 61440 16) by lia.
  rewrite (land_mask_mod m 1024 16), (land_mask_mod (m mod 2 ^ 16) 1024 16) by lia.
  rewrite (land_mask_mod m 2048 16), (land_mask_mod (m mod 2 ^ 16) 2048 16) by lia.
  rewrite (land_mask_mod m 512 16), (land_mask_mod (m mod 2 ^ 16) 512 16) by lia.
  now rewrite !Z.mod_mod by lia.
Qed.

Lemma holds_from_spec (f : Z -> bool) (count : nat) (z x : Z) :
  holds_from f count z = true -> z <= x < z + Z.of_nat count -> f x = true.
Proof.
  revert z. induction count as [| count IH]; intros z Hall Hx; [lia |].
  cbn [holds_from] in Hall. apply andb_true_iff in Hall as [Hz Hrest].
  destruct (Z.eq_dec x z) as [-> | Hne]; [assumption |].
  apply (IH (z + 1) Hrest). lia.
Qed.

Lemma unix_perms_survive_all :
  holds_from unix_perms_survive (Z.to_nat 65536) 0 = true.
Proof. vm_compute. reflexivity. Qed.

(** The permission value [osFS.LStat] reads is made of the twelve
    permission bits the kernel holds. *)
Lemma mode_perms_FileMode_of_unix (m : Z) :
  mode_perms (FileMode_of_unix m) = Z.land m 4095.
Proof.
  rewrite FileMode_of_unix_mod, (land_mask_mod m 4095 16) by lia.
  pose proof (Z.mod_pos_bound m (2 ^ 16) ltac:(lia)) as Hm.
  apply Z.eqb_eq.
  apply (holds_from_spec unix_perms_survive (Z.to_nat 65536) 0 _ unix_perms_survive_all).
  rewrite Z2Nat.id by lia. lia.
Qed.

Section CreationMore.

Variable proc : Process.
Variable afs : osFS.
Variable path : RelPath.t.

(** The pipe [syscall.Mkfifo] is asked for by [osFS.Mkfifo]. *)
Lemma Mkfifo_pipe (perms : Z) (h : Host) :
  syscall_Mkfifo proc (os_name afs path) (to_uint32 (Z.land perms 4095)) h =
  host_create (os_name afs path)
              (made_inode proc
                 (Z.lor S_IFIFO (Z.land (Z.land perms (Z.lnot (umask proc))) 4095)) 0 "") h.
Proof.
  unfold syscall_Mkfifo, syscall_Mknod. cbv zeta. rewrite to_uint32_perms.
  assert (Htype : Z.land (Z.lor (Z.land perms 4095) S_IFIFO) S_IFMT = S_IFIFO).
  { rewrite Z.lor_comm. now apply land_S_IFMT_perm. }
  assert (Hperm : Z.land (Z.land (Z.lor (Z.land perms 4095) S_IFIFO) 4095)
                         (Z.lnot (umask proc))
                  = Z.land (Z.land perms (Z.lnot (umask proc))) 4095).
  { rewrite Z.land_lor_distr_l, <- (Z.land_assoc perms).
    change (Z.land 4095 4095) with 4095. change (Z.land S_IFIFO 4095) with 0.
    rewrite Z.lor_0_r, <- !Z.land_assoc. f_equal. apply Z.land_comm. }
  rewrite Htype, Hperm. reflexivity.
Qed.

(** X27: a pipe made by [Mkfifo] reads back through [LStat] as a named
    pipe with the twelve permission bits of the request that the mask of
    the process lets through; [Readlink] tells it is no symbolic link. *)
Theorem Mkfifo_then_LStat (perms : Z) (h h' : Host) :
  osFS_Mkfifo proc afs path perms h = (None, h') ->
  osFS_Readlink afs path h' = ("", false, None) /\
  exists meta : Metadata,
    osFS_LStat afs path h' = Returns (Some meta, None) /\
    Type_ meta = Type_NamedPipe /\
    Perms meta = Z.land (Z.land perms (Z.lnot (umask proc))) 4095.
Proof.
  unfold osFS_Mkfifo. rewrite Mkfifo_pipe.
  destruct (host_create _ _ h) as [[e |] h1] eqn:Hmk; [discriminate |].
  intros [= <-]. apply host_create_ok in Hmk as (Hf & Hi & _).
  assert (Hty : mode_type (fi_Mode (ino_info (made_inode proc
                  (Z.lor S_IFIFO (Z.land (Z.land perms (Z.lnot (umask proc))) 4095)) 0 "")))
                = Some Type_NamedPipe).
  { cbn [made_inode ino_info fi_Mode]. rewrite mode_type_FileMode_of_unix.
    now rewrite (land_S_IFMT_perm S_IFIFO). }
  split.
  - unfold osFS_Readlink, os_Readlink, is_symlink. rewrite Hf, Hi.
    now rewrite (mode_type_symlink _ _ Hty).
  - eexists. split; [| split].
    + apply (LStat_entry_run afs path h1 _ Type_NamedPipe Hf Hi Hty).
    + reflexivity.
    + cbn [Perms made_inode ino_info fi_Mode].
      rewrite mode_perms_FileMode_of_unix, Z.land_lor_distr_l, <- Z.land_assoc.
      reflexivity.
Qed.

(** X28: a directory made by [Mkdir] reads back through [LStat] as a
    directory. *)
Theorem Mkdir_then_LStat (perms : Z) (h h' : Host) :
  osFS_Mkdir proc afs path perms h = (None, h') ->
  exists meta : Metadata,
    osFS_LStat afs path h' = Returns (Some meta, None) /\ Type_ meta = Type_Dir.
Proof.
  unfold osFS_Mkdir, os_Mkdir. cbv zeta.
  destruct (host_create _ _ h) as [[e |] h1] eqn:Hmk; [discriminate |].
  intros [= <-]. apply host_create_ok in Hmk as (Hf & Hi & _).
  eexists. split.
  - apply (LStat_entry_run afs path h1 _ Type_Dir Hf Hi).
    cbn [made_inode ino_info fi_Mode]. rewrite mode_type_FileMode_of_unix.
    rewrite Z.land_lor_distr_l, <- Z.land_assoc.
    change (Z.land 1023 S_IFMT) with 0. now rewrite Z.land_0_r.
  - reflexivity.
Qed.

(** X29: none of the five methods that make an entry overwrites one: at a
    path that is taken each returns an I/O error and leaves the host as it
    is. *)
Theorem creation_never_overwrites
  (i : Inode) (target : string) (major minor perms : Z) (h : Host) :
  lookup_faults h !! os_name afs path = None ->
  inodes h !! os_name afs path = Some i ->
  osFS_Mkdir proc afs path perms h =
  (Some (ErrIOUnknown {| Op := "mkdir"; Path := os_name afs path; Err := EEXIST |}), h) /\
  osFS_Mklink proc afs path target h =
  (Some (ErrIOUnknown {| Op := "symlink"; Path := os_name afs path; Err := EEXIST |}), h) /\
  osFS_Mkfifo proc afs path perms h =
  (Some (ErrIOUnknown {| Op := "mkfifo"; Path := os_name afs path; Err := EEXIST |}), h) /\
  osFS_MkdevBlock proc afs path major minor perms h =
  (Some (ErrIOUnknown {| Op := "mknod"; Path := os_name afs path; Err := EEXIST |}), h) /\
  osFS_MkdevChar proc afs path major minor perms h =
  (Some (ErrIOUnknown {| Op := "mknod"; Path := os_name afs path; Err := EEXIST |}), h).
Proof.
  intros Hf Hi.
  assert (Htaken : forall j, host_create (os_name afs path) j h = (Some EEXIST, h)).
  { intros j. unfold host_create. now rewrite Hf, Hi. }
  repeat split.
  - unfold osFS_Mkdir, os_Mkdir. cbv zeta. now rewrite Htaken.
  - unfold osFS_Mklink, os_Symlink. now rewrite Htaken.
  - unfold osFS_Mkfifo. now rewrite Mkfifo_pipe, Htaken.
  - unfold osFS_MkdevBlock. cbv zeta.
    now rewrite (Mknod_device proc afs path S_IFBLK) by (now left); rewrite Htaken.
  - unfold osFS_MkdevChar. cbv zeta.
    now rewrite (Mknod_device proc afs path S_IFCHR) by (now right); rewrite Htaken.
Qed.

End CreationMore.

Lemma Unpack_init_failure_witness :
  fst (unpack_with unpack_ok ware_abc "/dst" Placement_Mount (start blocked_cache_host))
  = Returns ({| ware_Type := ""; ware_Hash := "" |},
             Some (Errorf ExitLocalCacheProblem "cannot initialize cache dirs: %s"
                          [ArgErrFS (ErrIOUnknown {| Op := "mkdir"; Path := "/cache/tar";
                                                     Err := ENOTDIR |})])) /\
  trace (snd (unpack_with unpack_ok ware_abc "/dst" Placement_Mount
                          (start blocked_cache_host)))
  = [] /\
  host (snd (unpack_with unpack_ok ware_abc "/dst" Placement_Mount
                         (start blocked_cache_host)))
  = blocked_cache_host.
Proof.
  apply (Unpack_init_failure MkdirAll_model
           {| afs := cache_fs; unpackTool := unpack_ok |}
           "ctx" ware_abc "/dst" "mtime=keep" Placement_Mount ["file:///warehouse"]
           "monitor" (start blocked_cache_host)).
  vm_compute. reflexivity.
Defined.

Lemma Unpack_tool_failure_witness :
  fst (unpack_with unpack_failing ware_abc "/dst" Placement_Mount (start empty_cache_host))
  = Returns ({| ware_Type := ""; ware_Hash := "" |}, Some (ErrOther "warehouse unavailable")) /\
  host (snd (unpack_with unpack_failing ware_abc "/dst" Placement_Mount
                         (start empty_cache_host)))
  = snd (unpack_failing "ctx" ware_abc "/cache" "mtime=keep" Placement_Direct
                        ["file:///warehouse"] "monitor"
                        (snd (MkdirAll_model cache_fs (MustRelPath "tar/fileset") 448
                                             empty_cache_host))).
Proof.
  apply (Unpack_tool_failure MkdirAll_model
           {| afs := cache_fs; unpackTool := unpack_failing |}
           "ctx" ware_abc "/dst" "mtime=keep" Placement_Mount ["file:///warehouse"]
           "monitor" (start empty_cache_host)
           (snd (MkdirAll_model cache_fs (MustRelPath "tar/fileset") 448 empty_cache_host))).
  - vm_compute. reflexivity.
  - vm_compute. reflexivity.
Defined.

Lemma Mklink_then_Readlink_witness :
  osFS_Readlink data_fs (MustRelPath "alias")
    (snd (osFS_Mklink root_proc data_fs (MustRelPath "alias") "../elsewhere" driver_host))
  = ("../elsewhere", true, None) /\
  exists meta : Metadata,
    osFS_LStat data_fs (MustRelPath "alias")
      (snd (osFS_Mklink root_proc data_fs (MustRelPath "alias") "../elsewhere" driver_host))
    = Returns (Some meta, None) /\
    Type_ meta = Type_Symlink /\ Linkname meta = "../elsewhere".
Proof.
  apply (Mklink_then_Readlink root_proc data_fs (MustRelPath "alias") "../elsewhere"
           driver_host).
  vm_compute. reflexivity.
Defined.

Lemma Mkdev_then_LStat_witness :
  exists meta : Metadata,
    osFS_LStat data_fs (MustRelPath "tty")
      (snd (osFS_MkdevChar root_proc data_fs (MustRelPath "tty") 300 5 420 driver_host))
    = Returns (Some meta, None) /\
    Type_ meta = Type_CharDevice /\
    Devmajor meta = 300 mod 2 ^ 8 /\ Devminor meta = 5 mod 2 ^ 20.
Proof.
  apply (proj1 (Mkdev_then_LStat root_proc data_fs (MustRelPath "tty") 300 5 420
                  driver_host
                  (snd (osFS_MkdevChar root_proc data_fs (MustRelPath "tty") 300 5 420
                                       driver_host)))).
  vm_compute. reflexivity.
Defined.

Lemma Mkfifo_then_LStat_witness :
  osFS_Readlink data_fs (MustRelPath "pipe")
    (snd (osFS_Mkfifo root_proc data_fs (MustRelPath "pipe") 3565 driver_host))
  = ("", false, None) /\
  exists meta : Metadata,
    osFS_LStat data_fs (MustRelPath "pipe")
      (snd (osFS_Mkfifo root_proc data_fs (MustRelPath "pipe") 3565 driver_host))
    = Returns (Some meta, None) /\
    Type_ meta = Type_NamedPipe /\
    Perms meta = Z.land (Z.land 3565 (Z.lnot (umask root_proc))) 4095.
Proof.
  apply (Mkfifo_then_LStat root_proc data_fs (MustRelPath "pipe") 3565 driver_host).
  vm_compute. reflexivity.
Defined.

Lemma Mkdir_then_LStat_witness :
  exists meta : Metadata,
    osFS_LStat data_fs (MustRelPath "sub")
      (snd (osFS_Mkdir root_proc data_fs (MustRelPath "sub") 493 driver_host))
    = Returns (Some meta, None) /\ Type_ meta = Type_Dir.
Proof.
  apply (Mkdir_then_LStat root_proc data_fs (MustRelPath "sub") 493 driver_host).
  vm_compute. reflexivity.
Defined.

Lemma creation_never_overwrites_witness :
  osFS_Mkdir root_proc data_fs (MustRelPath "file") 493 driver_host =
  (Some (ErrIOUnknown {| Op := "mkdir"; Path := "/data/file"; Err := EEXIST |}),
   driver_host) /\
  osFS_Mklink root_proc data_fs (MustRelPath "file") "target" driver_host =
  (Some (ErrIOUnknown {| Op := "symlink"; Path := "/data/file"; Err := EEXIST |}),
   driver_host).
Proof.
  pose proof (creation_never_overwrites root_proc data_fs (MustRelPath "file")
                (new_inode 420 "") "target" 1 2 493 driver_host
                eq_refl eq_refl) as (Hdir & Hlink & _).
  split; assumption.
Defined.
